(** * Shallow embedding of the telemetry server (src/Server.py)

    Bytes are [Z] values in [0, 256); Python integers are [Z], with the
    masking of the source written out with [Z.land].  Wall-clock times
    ([time.time()], float seconds in the source) are modelled as integers
    in one common unit (milliseconds); the sensor floats decoded by
    [struct.unpack('!fff', chunk)] are kept as the 12-byte chunk they are
    decoded from.  The per-device dict is a record, the [devices_state]
    dict an association list in insertion order (the order Python's dict
    iterates in), and [deque(maxlen=500)] a list, oldest entry first. *)

From Stdlib Require Import ZArith List Bool Lia Sorted Permutation RelationClasses.
From Stdlib Require Floats.SpecFloat.
Import ListNotations.
Open Scope Z_scope.

(** ** Configuration & constants *)

Definition HEADER_SIZE : nat := 9.          (* struct.calcsize('!HHIB') *)
Definition SEQ_MAX : Z := 65536.
Definition WRAP_THRESHOLD : Z := 30000.
Definition DEFAULT_FLUSH_THRESHOLD : Z := 20.
Definition MSG_INIT : Z := 0.
Definition MSG_DATA : Z := 1.
Definition MSG_HEARTBEAT : Z := 2.
Definition TIMESTAMP_OFFSET : Z := 1764547200.
Definition HISTORY_MAXLEN : nat := 500.     (* deque(maxlen=500) *)

(** ** Helpers *)

Definition compute_checksum (data : list Z) : Z :=
  Z.land (fold_left Z.add data 0) 65535.

(** [struct.unpack('!H', ..)] and [struct.unpack('!I', ..)]: big endian. *)
Definition be16 (b0 b1 : Z) : Z := b0 * 256 + b1.
Definition be32 (b0 b1 b2 b3 : Z) : Z :=
  ((b0 * 256 + b1) * 256 + b2) * 256 + b3.

(** Python slicing [l[a:b]] for non-negative bounds. *)
Definition slice {A} (a b : nat) (l : list A) : list A :=
  firstn (b - a) (skipn a l).

(** [deque.append] on a deque with [maxlen]: the oldest entry is dropped
    when the deque is full. *)
Definition deque_append (maxlen : nat) (x : Z) (d : list Z) : list Z :=
  let d' := d ++ [x] in
  if Nat.ltb maxlen (length d') then tl d' else d'.

(** ** Packets *)

(** The [msg_type] string of the packet entry:
    ['INIT' if msg_type == MSG_INIT else ('DATA' if msg_type == MSG_DATA else 'HEARTBEAT')]. *)
Inductive kind := INIT | DATA | HEARTBEAT.

Definition kind_of (msg_type : Z) : kind :=
  if msg_type =? MSG_INIT then INIT
  else if msg_type =? MSG_DATA then DATA else HEARTBEAT.

Inductive status := Buffered | Flushed_Timeout | Flushed.

(** A reading: the 12-byte chunk that [struct.unpack('!fff', chunk)]
    decodes into (temp, hum, volt). *)
Definition reading := list Z.

(** The [packet_entry] dict built in [main]. *)
Record packet := mkPacket {
  p_device_id : Z;
  p_seq : Z;
  p_timestamp_sent : Z;
  p_arrival_time : Z;
  p_latency : Z;
  p_jitter : Z;
  p_duplicate : bool;
  p_gap_detected : bool;
  p_gap_count : Z;
  p_msg_type : kind;
  p_payload_len : Z;
  p_readings : list reading;
  p_status : status
}.

Definition set_status (s : status) (p : packet) : packet :=
  {| p_device_id := p_device_id p; p_seq := p_seq p;
     p_timestamp_sent := p_timestamp_sent p; p_arrival_time := p_arrival_time p;
     p_latency := p_latency p; p_jitter := p_jitter p;
     p_duplicate := p_duplicate p; p_gap_detected := p_gap_detected p;
     p_gap_count := p_gap_count p; p_msg_type := p_msg_type p;
     p_payload_len := p_payload_len p; p_readings := p_readings p;
     p_status := s |}.

(** [process_and_log_packet] writes these three keys of the packet dict. *)
Definition annotate (dup gap : bool) (gc : Z) (p : packet) : packet :=
  {| p_device_id := p_device_id p; p_seq := p_seq p;
     p_timestamp_sent := p_timestamp_sent p; p_arrival_time := p_arrival_time p;
     p_latency := p_latency p; p_jitter := p_jitter p;
     p_duplicate := dup; p_gap_detected := gap;
     p_gap_count := gc; p_msg_type := p_msg_type p;
     p_payload_len := p_payload_len p; p_readings := p_readings p;
     p_status := p_status p |}.

(** A CSV row written by [log_packet]: the packet and the reading it
    explodes ([None] for the [0.0, 0.0, 0.0] row of an empty batch). *)
Record log_row := mkRow { row_pkt : packet; row_reading : option reading }.

(** ** Per-device state *)

Record stats := mkStats { received : Z; duplicates : Z; gaps : Z }.

Record device := mkDevice {
  buffer : list packet;
  last_latency : Z;
  last_processed_seq : option Z;
  processed_seqs : list Z;
  last_seen : Z;
  status_alive : bool;
  dstats : stats
}.

Definition with_buffer (b : list packet) (d : device) : device :=
  mkDevice b (last_latency d) (last_processed_seq d) (processed_seqs d)
    (last_seen d) (status_alive d) (dstats d).

Definition set_tracker (last : option Z) (hist : list Z) (st : stats)
    (d : device) : device :=
  mkDevice (buffer d) (last_latency d) last hist (last_seen d)
    (status_alive d) st.

(** ** [process_and_log_packet]: finalization of one packet *)

(** The gap computation of the non-duplicate branch, lines 101-111:
    [(gap_detected, gap_count)]. *)
Definition gap_of (last : option Z) (seq_num : Z) : bool * Z :=
  match last with
  | None => (false, 0)
  | Some l =>
      let diff := seq_num - l in
      if diff <? - WRAP_THRESHOLD then
        let real_diff := seq_num + SEQ_MAX - l in
        if real_diff >? 1 then (true, real_diff - 1) else (false, 0)
      else if diff >? 1 then (true, diff - 1)
      else (false, 0)
  end.

Definition log_rows (p : packet) : list log_row :=
  match p_readings p with
  | [] => [mkRow p None]
  | rs => map (fun r => mkRow p (Some r)) rs
  end.

Definition process_and_log_packet (d : device) (p : packet)
    : device * list log_row :=
  let seq_num := p_seq p in
  let s := dstats d in
  let s := mkStats (received s + 1) (duplicates s) (gaps s) in
  let '(d, p, gap_detected, gap_count) :=
    if existsb (Z.eqb seq_num) (processed_seqs d) then
      (set_tracker (last_processed_seq d) (processed_seqs d)
         (mkStats (received s) (duplicates s + 1) (gaps s)) d,
       annotate true (p_gap_detected p) (p_gap_count p) p, false, 0)
    else
      let hist := deque_append HISTORY_MAXLEN seq_num (processed_seqs d) in
      let '(g, gc) := gap_of (last_processed_seq d) seq_num in
      (set_tracker (Some seq_num) hist s d, p, g, gc) in
  let p := annotate (p_duplicate p) gap_detected gap_count p in
  let s := dstats d in
  let d := if gap_detected
           then set_tracker (last_processed_seq d) (processed_seqs d)
                  (mkStats (received s) (duplicates s) (gaps s + gap_count)) d
           else d in
  (d, log_rows p).

(** Finalizing a list of packets in order. *)
Fixpoint process_all (d : device) (ps : list packet) : device * list log_row :=
  match ps with
  | [] => (d, [])
  | p :: ps' =>
      let '(d1, l1) := process_and_log_packet d p in
      let '(d2, l2) := process_all d1 ps' in
      (d2, l1 ++ l2)
  end.

(** ** Reordering buffer *)

(** [list.sort(key=lambda x: x['timestamp_sent'])]: Python's sort is
    stable, and so is this insertion sort (an element is inserted after
    every element with an equal key). *)
Fixpoint insert_by_ts (x : packet) (l : list packet) : list packet :=
  match l with
  | [] => [x]
  | y :: r =>
      if p_timestamp_sent x <? p_timestamp_sent y then x :: l
      else y :: insert_by_ts x r
  end.

Definition sort_by_ts (l : list packet) : list packet :=
  fold_left (fun acc x => insert_by_ts x acc) l [].

(** Lines 326-328:
    [while len(state['buffer']) > flush_threshold:
         packet_to_process = state['buffer'].pop(0)
         process_and_log_packet(state, packet_to_process, args.output)].
    [buf] is the device's buffer; [None] is the [IndexError] of [pop(0)]
    on an empty list (reached only when [flush_threshold < 0]). *)
Fixpoint drain (flush_threshold : Z) (buf : list packet) (d : device)
    : option (device * list log_row) :=
  if Z.of_nat (length buf) >? flush_threshold then
    match buf with
    | [] => None
    | p :: rest =>
        let '(d1, l1) := process_and_log_packet (with_buffer rest d) p in
        match drain flush_threshold rest d1 with
        | None => None
        | Some (d2, l2) => Some (d2, l1 ++ l2)
        end
    end
  else Some (d, []).

(** ** Liveness check (lines 184-202) *)

Definition set_liveness (seen : Z) (alive : bool) (d : device) : device :=
  mkDevice (buffer d) (last_latency d) (last_processed_seq d)
    (processed_seqs d) seen alive (dstats d).

(** [while d_state['buffer']: pkt = d_state['buffer'].pop(0);
     pkt['status'] = 'Flushed (Timeout)'; process_and_log_packet(...)] *)
Fixpoint pop_all (buf : list packet) (d : device) : device * list log_row :=
  match buf with
  | [] => (d, [])
  | p :: rest =>
      let '(d1, l1) :=
        process_and_log_packet (with_buffer rest d) (set_status Flushed_Timeout p) in
      let '(d2, l2) := pop_all rest d1 in
      (d2, l1 ++ l2)
  end.

Definition liveness_check_device (liveness_timeout_client current_real_time : Z)
    (d : device) : device * list log_row :=
  if status_alive d then
    let time_since_last := current_real_time - last_seen d in
    if time_since_last >? liveness_timeout_client then
      let d := set_liveness (last_seen d) false d in
      if (0 <? length (buffer d))%nat then
        let b := sort_by_ts (buffer d) in
        pop_all b (with_buffer b d)
      else (d, [])
    else (d, [])
  else (d, []).

(** The [devices_state] dict, in insertion order. *)
Definition devices := list (Z * device).

Fixpoint liveness_check (timeout now : Z) (ds : devices) : devices * list log_row :=
  match ds with
  | [] => ([], [])
  | (k, d) :: rest =>
      let '(d', l1) := liveness_check_device timeout now d in
      let '(rest', l2) := liveness_check timeout now rest in
      ((k, d') :: rest', l1 ++ l2)
  end.

Fixpoint lookup (k : Z) (ds : devices) : option device :=
  match ds with
  | [] => None
  | (k', d) :: rest => if k =? k' then Some d else lookup k rest
  end.

(** [devices_state[k] = v]: in place for a known key, at the end otherwise. *)
Fixpoint put (k : Z) (v : device) (ds : devices) : devices :=
  match ds with
  | [] => [(k, v)]
  | (k', d) :: rest => if k =? k' then (k, v) :: rest else (k', d) :: put k v rest
  end.

(** ** One received datagram (lines 213-328) *)

Definition new_device (arrival_time : Z) : device :=
  mkDevice [] 0 None [] arrival_time true (mkStats 0 0 0).

(** [INIT]: [processed_seqs.clear(); last_processed_seq = None;
    stats['duplicates'] = 0]. *)
Definition reset_tracker (d : device) : device :=
  let s := dstats d in
  set_tracker None [] (mkStats (received s) 0 (gaps s)) d.

Definition set_last_latency (l : Z) (d : device) : device :=
  mkDevice (buffer d) l (last_processed_seq d) (processed_seqs d)
    (last_seen d) (status_alive d) (dstats d).

(** Payload parsing, lines 280-287. *)
Definition parse_readings (payload : list Z) : list reading :=
  let count := nth 0 payload 0 in
  flat_map (fun i =>
      let start_idx := (1 + i * 12)%nat in
      let end_idx := (start_idx + 12)%nat in
      if Nat.leb end_idx (length payload)
      then [slice start_idx end_idx payload] else [])
    (seq 0 (Z.to_nat count)).

(** Lines 292-296. *)
Definition arrival_ms_masked (arrival_time : Z) : Z :=
  Z.land (arrival_time - TIMESTAMP_OFFSET * 1000) 4294967295.

Definition latency_of (arrival_time ts_sent : Z) : Z :=
  let latency_ms := arrival_ms_masked arrival_time - ts_sent in
  let latency_ms :=
    if latency_ms <? -2147483648 then latency_ms + 4294967296 else latency_ms in
  Z.max 0 latency_ms.

(** Lines 298-300. *)
Definition jitter_of (last_lat latency_ms : Z) : Z :=
  if last_lat >? 0 then Z.abs (latency_ms - last_lat) else 0.

(** Lines 220-319: parse and check a datagram, update the device state
    ([last_seen], [status_alive], INIT reset, [last_latency]) and build
    [packet_entry].  [None] is a datagram dropped by [continue] (too short
    or failing the checksum); otherwise the device id, its updated state
    and the entry. *)
Definition arrive (arrival_time : Z) (data : list Z) (ds : devices)
    : option (Z * device * packet) :=
  if (length data <? HEADER_SIZE + 2)%nat then None else
  let header := firstn HEADER_SIZE data in
  let device_id := be16 (nth 0 data 0) (nth 1 data 0) in
  let seq_num := be16 (nth 2 data 0) (nth 3 data 0) in
  let ts_sent := be32 (nth 4 data 0) (nth 5 data 0) (nth 6 data 0) (nth 7 data 0) in
  let msg_version_byte := nth 8 data 0 in
  let msg_type := Z.land msg_version_byte 15 in
  let checksum := be16 (nth 9 data 0) (nth 10 data 0) in
  if negb (compute_checksum (header ++ skipn (HEADER_SIZE + 2) data) =? checksum)
  then None else
  let state := match lookup device_id ds with
               | Some d => d
               | None => new_device arrival_time
               end in
  let state := set_liveness arrival_time true state in
  let state := if msg_type =? MSG_INIT then reset_tracker state else state in
  let payload := skipn (HEADER_SIZE + 2) data in
  let readings_list :=
    if (msg_type =? MSG_DATA) && (0 <? length payload)%nat
    then parse_readings payload else [] in
  let latency_ms := latency_of arrival_time ts_sent in
  let jitter := jitter_of (last_latency state) latency_ms in
  let state := set_last_latency latency_ms state in
  let packet_entry :=
    {| p_device_id := device_id; p_seq := seq_num; p_timestamp_sent := ts_sent;
       p_arrival_time := arrival_time; p_latency := latency_ms; p_jitter := jitter;
       p_duplicate := false; p_gap_detected := false; p_gap_count := 0;
       p_msg_type := kind_of msg_type;
       p_payload_len := Z.of_nat (length data) - Z.of_nat HEADER_SIZE - 2;
       p_readings := readings_list; p_status := Buffered |} in
  Some (device_id, state, packet_entry).

(** The rest of one iteration of the receive loop after [recvfrom]
    (lines 321-328): append, re-sort and drain.  The result is the new
    device map and the rows logged, or [None] for the uncaught
    [IndexError] of the drain loop. *)
Definition handle_datagram (flush_threshold arrival_time : Z) (data : list Z)
    (ds : devices) : option (devices * list log_row) :=
  match arrive arrival_time data ds with
  | None => Some (ds, [])
  | Some (device_id, state, packet_entry) =>
      let buf := sort_by_ts (buffer state ++ [packet_entry]) in
      match drain flush_threshold buf (with_buffer buf state) with
      | None => None
      | Some (state, rows) => Some (put device_id state ds, rows)
      end
  end.

(** Datagrams received one after another, with no device timing out in
    between. *)
Fixpoint receive_all (flush_threshold : Z) (evs : list (Z * list Z))
    (ds : devices) : option (devices * list log_row) :=
  match evs with
  | [] => Some (ds, [])
  | (t, data) :: evs' =>
      match handle_datagram flush_threshold t data ds with
      | None => None
      | Some (ds1, r1) =>
          match receive_all flush_threshold evs' ds1 with
          | None => None
          | Some (ds2, r2) => Some (ds2, r1 ++ r2)
          end
      end
  end.

(** ** Datagrams as the client builds them *)

Definition bytes16 (x : Z) : list Z := [Z.shiftr x 8 mod 256; x mod 256].
Definition bytes32 (x : Z) : list Z :=
  [Z.shiftr x 24 mod 256; Z.shiftr x 16 mod 256; Z.shiftr x 8 mod 256; x mod 256].

Definition datagram (dev sq ts msg_version_byte : Z) (payload : list Z) : list Z :=
  let header := bytes16 dev ++ bytes16 sq ++ bytes32 ts ++ [msg_version_byte] in
  header ++ bytes16 (compute_checksum (header ++ payload)) ++ payload.

(** A buffered HEARTBEAT entry with the given sequence and send time. *)
Definition sample_packet (sq ts : Z) : packet :=
  {| p_device_id := 7; p_seq := sq; p_timestamp_sent := ts; p_arrival_time := 0;
     p_latency := 0; p_jitter := 0; p_duplicate := false;
     p_gap_detected := false; p_gap_count := 0; p_msg_type := HEARTBEAT;
     p_payload_len := 0; p_readings := []; p_status := Buffered |}.

(** A device state with the given tracker fields and an empty buffer. *)
Definition tracker_device (last : option Z) (hist : list Z) : device :=
  mkDevice [] 0 last hist 0 true (mkStats 0 0 0).

(** A datagram of device 7 whose checksum field (0, 0) is wrong. *)
Definition corrupted_datagram : list Z := [0; 7; 0; 1; 0; 0; 0; 10; 2; 0; 0].

(** The sequences 1, ..., 500. *)
Definition seqs_1_500 : list Z := map Z.of_nat (seq 1 500).

Definition ts_le (p q : packet) : Prop := p_timestamp_sent p <= p_timestamp_sent q.

(** Five HEARTBEAT datagrams of device 7 whose send times arrive in the
    order 10, 30, 20, 40, 50. *)
Definition reorder_events : list (Z * list Z) :=
  [(TIMESTAMP_OFFSET * 1000 + 100, datagram 7 1 10 2 []);
   (TIMESTAMP_OFFSET * 1000 + 200, datagram 7 3 30 2 []);
   (TIMESTAMP_OFFSET * 1000 + 300, datagram 7 2 20 2 []);
   (TIMESTAMP_OFFSET * 1000 + 400, datagram 7 4 40 2 []);
   (TIMESTAMP_OFFSET * 1000 + 500, datagram 7 5 50 2 [])].

Definition device_id_of (data : list Z) : Z := be16 (nth 0 data 0) (nth 1 data 0).

Definition ts_sent_of (data : list Z) : Z :=
  be32 (nth 4 data 0) (nth 5 data 0) (nth 6 data 0) (nth 7 data 0).

Definition msg_type_of (data : list Z) : Z := Z.land (nth 8 data 0) 15.

Definition payload_of (data : list Z) : list Z := skipn (HEADER_SIZE + 2) data.

Definition checksum_ok (data : list Z) : bool :=
  compute_checksum (firstn HEADER_SIZE data ++ payload_of data)
    =? be16 (nth 9 data 0) (nth 10 data 0).

(** The device state a datagram of [device_id] starts from. *)
Definition prior_state (device_id arrival_time : Z) (ds : devices) : device :=
  match lookup device_id ds with
  | Some d => d
  | None => new_device arrival_time
  end.

(** A DATA datagram with an empty batch, as the witnesses use it. *)
Definition sample_datagram : list Z := datagram 1 1 4294967290 1 [].


(** Device 1 already finalized sequence 1; the sample datagram (sequence
    1 again) is a duplicate once drained with threshold 0. *)
Definition dev1_seen : devices :=
  [(1, mkDevice [] 30 (Some 1) [1] 0 true (mkStats 1 0 0))].

(** A DATA datagram of device 7 announcing 3 readings but carrying one
    complete reading and 5 further bytes. *)
Definition truncated_datagram : list Z :=
  datagram 7 1 10 1 ([3] ++ repeat 65 12 ++ repeat 66 5).

(** Device 1 with a history [1; 2], last sequence 2, two duplicates and
    one gap counted. *)
Definition dev1_busy : devices :=
  [(1, mkDevice [] 30 (Some 2) [1; 2] 0 true (mkStats 5 2 1))].

(** A device marked dead, with nothing buffered, and a map holding it
    under id 7. *)
Definition dead_device : device := mkDevice [] 0 None [] 0 false (mkStats 0 0 0).

Definition dead7 : devices := [(7, dead_device)].

(** An alive device last seen at 0 holding two packets out of send order. *)
Definition stale_device : device :=
  mkDevice [sample_packet 2 20; sample_packet 1 10] 5 (Some 0) [0] 0 true (mkStats 1 0 0).

(** ** The main loop *)

(** One iteration of [while True] (lines 182-328): the liveness check at
    [current_real_time], then the datagram received, if any ([None] is the
    [socket.timeout] that [continue]s).  The [break] on other socket errors
    ends the loop and is not an iteration. *)
Definition iteration (flush_threshold liveness_timeout_client current_real_time : Z)
    (recv : option (Z * list Z)) (ds : devices) : option (devices * list log_row) :=
  let '(ds1, r1) := liveness_check liveness_timeout_client current_real_time ds in
  match recv with
  | None => Some (ds1, r1)
  | Some (arrival_time, data) =>
      match handle_datagram flush_threshold arrival_time data ds1 with
      | None => None
      | Some (ds2, r2) => Some (ds2, r1 ++ r2)
      end
  end.

(** The [finally] block, lines 334-338:
    [state['buffer'].sort(...); for pkt in state['buffer']:
       pkt['status'] = 'Flushed'; process_and_log_packet(state, pkt, ...)].
    The buffer is not emptied; the packet dicts it holds are the ones
    annotated by [process_and_log_packet].  Only what the summary reads
    afterwards (the counters) and the rows logged are returned. *)
Definition shutdown_flush_device (d : device) : stats * list log_row :=
  let b := map (set_status Flushed) (sort_by_ts (buffer d)) in
  let '(d', rows) := process_all (with_buffer b d) b in
  (dstats d', rows).

Fixpoint shutdown_flush (ds : devices) : list (Z * stats) * list log_row :=
  match ds with
  | [] => ([], [])
  | (k, d) :: rest =>
      let '(s, r1) := shutdown_flush_device d in
      let '(ss, r2) := shutdown_flush rest in
      ((k, s) :: ss, r1 ++ r2)
  end.

(** What [process_and_log_packet] keeps true of the sequence tracker and
    the counters. *)
Definition tracker_ok (d : device) : Prop :=
  NoDup (processed_seqs d) /\
  (length (processed_seqs d) <= HISTORY_MAXLEN)%nat /\
  (forall s, last_processed_seq d = Some s -> In s (processed_seqs d)) /\
  0 <= duplicates (dstats d) <= received (dstats d) /\
  0 <= gaps (dstats d).

(** What the server keeps true of a device between iterations. *)
Definition device_ok (flush_threshold : Z) (d : device) : Prop :=
  Sorted ts_le (buffer d) /\
  Z.of_nat (length (buffer d)) <= flush_threshold /\
  tracker_ok d.

Definition devices_ok (flush_threshold : Z) (ds : devices) : Prop :=
  Forall (fun kd => device_ok flush_threshold (snd kd)) ds.

(** ** The sender (src/Client.py) *)

Module Client.

Definition MSG_DATA : Z := 1.
Definition MSG_HEARTBEAT : Z := 2.

(** [compute_checksum], lines 164-169. *)
Definition compute_checksum (data : list Z) : Z :=
  Z.land (fold_left Z.add data 0) 65535.

(** [struct.pack('!HHIB', device_id, seq_num, timestamp, msg_type)]; [None]
    is the [struct.error] raised for a field out of its range. *)
Definition pack_header (device_id seq_num timestamp msg_type : Z) : option (list Z) :=
  if (0 <=? device_id) && (device_id <? 65536) && (0 <=? seq_num) && (seq_num <? 65536)
     && (0 <=? timestamp) && (timestamp <? 2 ^ 32) && (0 <=? msg_type) && (msg_type <? 256)
  then Some (bytes16 device_id ++ bytes16 seq_num ++ bytes32 timestamp ++ [msg_type])
  else None.

(** [create_heartbeat_packet], lines 92-104; [timestamp] is
    [int(time.time())]. *)
Definition create_heartbeat_packet (device_id seq_num timestamp : Z) : option (list Z) :=
  match pack_header device_id seq_num timestamp MSG_HEARTBEAT with
  | None => None
  | Some packet => Some (packet ++ bytes16 (compute_checksum packet))
  end.

(** A Python float is a binary64 value, given as a [SpecFloat.spec_float]
    (prec 53, emax 1024). *)
Definition pyfloat := SpecFloat.spec_float.

(** C's [(float)x]: rounding to the nearest binary32 value (prec 24,
    emax 128), ties to even; a finite value too large becomes an infinity
    and one too small a zero of its sign. *)
Definition round_f32 (x : pyfloat) : SpecFloat.spec_float :=
  match x with
  | SpecFloat.S754_finite s m e => SpecFloat.binary_round 24 128 s m e
  | _ => x
  end.

Definition sign_bit (s : bool) : Z := if s then 2 ^ 31 else 0.

(** [struct.pack('!f', x)] as the 32-bit pattern of [(float)x]; [None] is
    the [OverflowError] raised when a finite [x] rounds to an infinity.
    A NaN packs as [7fc00000]. *)
Definition pack_f (x : pyfloat) : option Z :=
  match x, round_f32 x with
  | SpecFloat.S754_finite _ _ _, SpecFloat.S754_infinity _ => None
  | _, SpecFloat.S754_zero s => Some (sign_bit s)
  | _, SpecFloat.S754_infinity s => Some (sign_bit s + 2139095040)
  | _, SpecFloat.S754_nan => Some 2143289344
  | _, SpecFloat.S754_finite s m e =>
      Some (sign_bit s +
            (if 2 ^ 23 <=? Z.pos m then (e + 150) * 2 ^ 23 + (Z.pos m - 2 ^ 23)
             else Z.pos m))
  end.

(** A reading dict of [generate_sensor_readings]. *)
Record sensor_reading := mkReading {
  temperature : pyfloat; humidity : pyfloat; voltage : pyfloat
}.

(** [struct.pack('!fff', readings['temperature'], readings['humidity'],
    readings['voltage'])]. *)
Definition pack_fff (r : sensor_reading) : option (list Z) :=
  match pack_f (temperature r), pack_f (humidity r), pack_f (voltage r) with
  | Some t, Some h, Some v => Some (bytes32 t ++ bytes32 h ++ bytes32 v)
  | _, _, _ => None
  end.

(** The chunks the loop of lines 121-125 appends to [payload_readings], in
    order; [None] if one [struct.pack] raises. *)
Fixpoint pack_all (rs : list sensor_reading) : option (list (list Z)) :=
  match rs with
  | [] => Some []
  | r :: rs' =>
      match pack_fff r, pack_all rs' with
      | Some c, Some cs => Some (c :: cs)
      | _, _ => None
      end
  end.

(** [create_batch_data_packet], lines 107-133: [struct.pack('!B', n)]
    raises for more than 255 readings. *)
Definition create_batch_data_packet (device_id seq_num timestamp : Z)
    (readings_list : list sensor_reading) : option (list Z) :=
  match pack_header device_id seq_num timestamp MSG_DATA with
  | None => None
  | Some header =>
      let num_readings := Z.of_nat (length readings_list) in
      if num_readings <? 256 then
        match pack_all readings_list with
        | None => None
        | Some chunks =>
            let payload := [num_readings] ++ concat chunks in
            Some (header ++ bytes16 (compute_checksum (header ++ payload)) ++ payload)
        end
      else None
  end.

(** The Python float [23.45]: the binary64 value nearest to 469/20. *)
Definition f_23_45 : pyfloat :=
  SpecFloat.SFdiv 53 1024 (SpecFloat.S754_finite false 469 0) (SpecFloat.S754_finite false 20 0).

(** A reading as [generate_sensor_readings] rounds them to two decimals. *)
Definition sample_reading : sensor_reading :=
  mkReading f_23_45
    (SpecFloat.SFdiv 53 1024 (SpecFloat.S754_finite false 1013 0) (SpecFloat.S754_finite false 20 0))
    (SpecFloat.SFdiv 53 1024 (SpecFloat.S754_finite false 37 0) (SpecFloat.S754_finite false 10 0)).

End Client.

(** [l'] is [l] with exactly one byte changed to another byte value. *)
Definition one_byte_change (l l' : list Z) : Prop :=
  exists a b b' c, l = a ++ b :: c /\ l' = a ++ b' :: c /\ b <> b' /\
    0 <= b < 256 /\ 0 <= b' < 256.

(** * Properties *)

(** ** Sequence tracker *)

Lemma process_nondup (d : device) (p : packet) :
  existsb (Z.eqb (p_seq p)) (processed_seqs d) = false ->
  process_and_log_packet d p =
    (let '(g, gc) := gap_of (last_processed_seq d) (p_seq p) in
     let s := dstats d in
     (set_tracker (Some (p_seq p))
        (deque_append HISTORY_MAXLEN (p_seq p) (processed_seqs d))
        (mkStats (received s + 1) (duplicates s) (if g then gaps s + gc else gaps s)) d,
      log_rows (annotate (p_duplicate p) g gc p))).
Proof.
  intros H. unfold process_and_log_packet. rewrite H.
  destruct (gap_of _ _) as [[|] gc]; reflexivity.
Qed.

Lemma process_dup (d : device) (p : packet) :
  existsb (Z.eqb (p_seq p)) (processed_seqs d) = true ->
  process_and_log_packet d p =
    (let s := dstats d in
     (set_tracker (last_processed_seq d) (processed_seqs d)
        (mkStats (received s + 1) (duplicates s + 1) (gaps s)) d,
      log_rows (annotate true false 0 p))).
Proof.
  intros H. unfold process_and_log_packet. rewrite H. reflexivity.
Qed.

Lemma existsb_In_false (s : Z) (h : list Z) :
  ~ In s h -> existsb (Z.eqb s) h = false.
Proof.
  intros H. apply Bool.not_true_iff_false. intros E.
  apply existsb_exists in E as [x [Hx E]]. apply Z.eqb_eq in E. subst; auto.
Qed.

Lemma existsb_In_true (s : Z) (h : list Z) :
  In s h -> existsb (Z.eqb s) h = true.
Proof.
  intros H. apply existsb_exists. exists s. split; [exact H | apply Z.eqb_refl].
Qed.

Lemma log_rows_pkt (p : packet) (r : log_row) :
  In r (log_rows p) -> row_pkt r = p.
Proof.
  unfold log_rows. destruct (p_readings p) as [|r0 rs].
  - intros [<-|[]]. reflexivity.
  - intros Hr. apply in_map_iff in Hr as [x [<- _]]. reflexivity.
Qed.

(** C1 (as the code has it): a non-duplicate packet older than
    [last_processed_seq] by at most [WRAP_THRESHOLD] gets no gap, is appended
    to the history, and [last_processed_seq] is set to that older sequence. *)
Theorem late_arrival_moves_last_back (d : device) (p : packet) (l : Z) :
  last_processed_seq d = Some l ->
  ~ In (p_seq p) (processed_seqs d) ->
  - WRAP_THRESHOLD <= p_seq p - l < 0 ->
  let '(d', rows) := process_and_log_packet d p in
  last_processed_seq d' = Some (p_seq p) /\
  processed_seqs d' = deque_append HISTORY_MAXLEN (p_seq p) (processed_seqs d) /\
  gaps (dstats d') = gaps (dstats d) /\
  Forall (fun r => p_gap_detected (row_pkt r) = false /\ p_gap_count (row_pkt r) = 0) rows.
Proof.
  intros Hl Hn Hd. rewrite process_nondup by (apply existsb_In_false; exact Hn).
  rewrite Hl. unfold gap_of.
  replace (p_seq p - l <? - WRAP_THRESHOLD) with false by (symmetry; apply Z.ltb_ge; lia).
  replace (p_seq p - l >? 1) with false by (symmetry; rewrite Z.gtb_ltb; apply Z.ltb_ge; lia).
  cbn. repeat split; try reflexivity.
  apply Forall_forall. intros r Hr. apply log_rows_pkt in Hr. rewrite Hr.
  split; reflexivity.
Qed.

Lemma late_arrival_moves_last_back_witness :
  last_processed_seq (tracker_device (Some 100) [100]) = Some 100 /\
  ~ In (p_seq (sample_packet 50 0)) (processed_seqs (tracker_device (Some 100) [100])) /\
  - WRAP_THRESHOLD <= p_seq (sample_packet 50 0) - 100 < 0 /\
  (let '(d', rows) := process_and_log_packet (tracker_device (Some 100) [100]) (sample_packet 50 0) in
   last_processed_seq d' = Some (p_seq (sample_packet 50 0)) /\
   processed_seqs d' = deque_append HISTORY_MAXLEN (p_seq (sample_packet 50 0))
                         (processed_seqs (tracker_device (Some 100) [100])) /\
   gaps (dstats d') = gaps (dstats (tracker_device (Some 100) [100])) /\
   Forall (fun r => p_gap_detected (row_pkt r) = false /\ p_gap_count (row_pkt r) = 0) rows).
Proof.
  split; [reflexivity |]. split; [cbn; intros [H|[]]; discriminate |].
  split; [cbn; lia |].
  apply (late_arrival_moves_last_back _ _ 100); [reflexivity | cbn; intros [H|[]]; discriminate | cbn; lia].
Defined.

(** C1 counterexample: with [last_processed_seq = 100], finalizing the new
    sequence 50 (diff -50, above the wraparound threshold) moves
    [last_processed_seq] back to 50. *)
Lemma late_arrival_counterexample :
  let d := tracker_device (Some 100) [100] in
  let d' := fst (process_and_log_packet d (sample_packet 50 0)) in
  last_processed_seq d' = Some 50 /\ last_processed_seq d' <> last_processed_seq d.
Proof. cbn. split; [reflexivity | congruence]. Qed.

(** C4 (as the code has it): at [last_processed_seq = 65535] a new
    sequence 2 takes the wraparound path, [real_diff = 3], and is reported
    as a gap of 2 (sequences 0 and 1 missing); [last_processed_seq]
    becomes 2. *)
Theorem wraparound_65535_to_2 (d : device) (p : packet) :
  last_processed_seq d = Some 65535 ->
  p_seq p = 2 ->
  ~ In 2 (processed_seqs d) ->
  let '(d', rows) := process_and_log_packet d p in
  last_processed_seq d' = Some 2 /\
  gaps (dstats d') = gaps (dstats d) + 2 /\
  rows <> [] /\
  Forall (fun r => p_gap_detected (row_pkt r) = true /\ p_gap_count (row_pkt r) = 2) rows.
Proof.
  intros Hl Hs Hn. rewrite process_nondup by (rewrite Hs; apply existsb_In_false; exact Hn).
  rewrite Hl, Hs. cbn. repeat split.
  - unfold log_rows. destruct (p_readings _); cbn; [discriminate |].
    destruct (map _ _) eqn:E; [discriminate | discriminate].
  - apply Forall_forall. intros r Hr. apply log_rows_pkt in Hr. rewrite Hr.
    split; reflexivity.
Qed.

Lemma wraparound_65535_to_2_witness :
  let d := tracker_device (Some 65535) [65535] in
  let p := sample_packet 2 0 in
  last_processed_seq d = Some 65535 /\ p_seq p = 2 /\ ~ In 2 (processed_seqs d) /\
  (let '(d', rows) := process_and_log_packet d p in
   last_processed_seq d' = Some 2 /\
   gaps (dstats d') = gaps (dstats d) + 2 /\
   rows <> [] /\
   Forall (fun r => p_gap_detected (row_pkt r) = true /\ p_gap_count (row_pkt r) = 2) rows).
Proof.
  cbv zeta. split; [reflexivity |]. split; [reflexivity |].
  split; [cbn; intros [H|[]]; discriminate |].
  apply wraparound_65535_to_2; [reflexivity | reflexivity | cbn; intros [H|[]]; discriminate].
Defined.

(** C4 counterexample: the row logged for sequence 2 after 65535 carries a
    gap flag and a gap count of 2, not "in order, no gap". *)
Lemma wraparound_counterexample :
  map (fun r => (p_gap_detected (row_pkt r), p_gap_count (row_pkt r)))
    (snd (process_and_log_packet (tracker_device (Some 65535) [65535]) (sample_packet 2 0)))
  = [(true, 2)].
Proof. reflexivity. Qed.

(** ** Integrity check *)

(** C2 (as the code has it): a datagram of at least 11 bytes whose
    checksum does not match is dropped by [continue] before any device state
    is looked up: the device map is unchanged and nothing is logged. *)
Theorem checksum_mismatch_dropped (flush_threshold arrival_time : Z)
    (data : list Z) (ds : devices) :
  (HEADER_SIZE + 2 <= length data)%nat ->
  compute_checksum (firstn HEADER_SIZE data ++ skipn (HEADER_SIZE + 2) data)
    <> be16 (nth 9 data 0) (nth 10 data 0) ->
  arrive arrival_time data ds = None /\
  handle_datagram flush_threshold arrival_time data ds = Some (ds, []).
Proof.
  intros Hlen Hck.
  assert (Ha : arrive arrival_time data ds = None).
  { unfold arrive.
    replace (length data <? HEADER_SIZE + 2)%nat with false
      by (symmetry; apply Nat.ltb_ge; exact Hlen).
    apply Z.eqb_neq in Hck. cbv zeta. rewrite Hck. reflexivity. }
  split; [exact Ha |]. unfold handle_datagram. rewrite Ha. reflexivity.
Qed.

Lemma checksum_mismatch_dropped_witness :
  (HEADER_SIZE + 2 <= length corrupted_datagram)%nat /\
  compute_checksum (firstn HEADER_SIZE corrupted_datagram ++ skipn (HEADER_SIZE + 2) corrupted_datagram)
    <> be16 (nth 9 corrupted_datagram 0) (nth 10 corrupted_datagram 0) /\
  arrive 1000 corrupted_datagram [] = None /\
  handle_datagram 20 1000 corrupted_datagram [] = Some ([], []).
Proof.
  split; [cbn; lia |]. split; [vm_compute; discriminate |].
  apply checksum_mismatch_dropped; [cbn; lia | vm_compute; discriminate].
Defined.

(** C2 counterexample: the corrupted datagram is neither recorded nor
    counted: no device entry (hence no counter) is created and no row is
    logged. *)
Lemma checksum_counterexample :
  handle_datagram 20 1000 corrupted_datagram [] = Some ([], []).
Proof. vm_compute. reflexivity. Qed.

(** ** Bounded duplicate history *)

Lemma deque_append_skipn (m : nat) (x : Z) (d : list Z) :
  (0 < m)%nat -> (length d <= m)%nat ->
  deque_append m x d = skipn (length (d ++ [x]) - m) (d ++ [x]).
Proof.
  intros Hm Hd. unfold deque_append. rewrite length_app.
  change (length [x]) with 1%nat.
  destruct (Nat.ltb_spec m (length d + 1)) as [Hlt|Hge].
  - replace (length d + 1 - m)%nat with 1%nat by lia.
    destruct (d ++ [x]); reflexivity.
  - replace (length d + 1 - m)%nat with 0%nat by lia. reflexivity.
Qed.

Lemma deque_append_length (m : nat) (x : Z) (d : list Z) :
  (length d <= m)%nat -> (length (deque_append m x d) <= m)%nat.
Proof.
  intros Hd. unfold deque_append.
  destruct (Nat.ltb_spec m (length (d ++ [x]))) as [Hlt|Hge]; [| lia].
  rewrite length_app in *. cbn in *. destruct (d ++ [x]) eqn:E.
  - cbn. lia.
  - cbn. assert (length (d ++ [x]) = S (length l)) by (rewrite E; reflexivity).
    rewrite length_app in H. cbn in H. lia.
Qed.

(** Appending the values [l] one after another to a deque of maxlen [m]
    leaves the last [m] values of [d ++ l]. *)
Lemma deque_append_fold (m : nat) (l d : list Z) :
  (0 < m)%nat -> (length d <= m)%nat ->
  fold_left (fun h x => deque_append m x h) l d =
    skipn (length (d ++ l) - m) (d ++ l).
Proof.
  intros Hm. revert d. induction l as [|x l IH]; intros d Hd; cbn.
  - rewrite app_nil_r. replace (length d - m)%nat with 0%nat by lia. reflexivity.
  - rewrite IH by (apply deque_append_length; exact Hd).
    rewrite deque_append_skipn by assumption.
    set (j := (length (d ++ [x]) - m)%nat).
    assert (E : skipn j (d ++ [x]) ++ l = skipn j (d ++ x :: l)).
    { replace (d ++ x :: l) with ((d ++ [x]) ++ l)
        by (rewrite <- app_assoc; reflexivity).
      rewrite (skipn_app j (d ++ [x]) l).
      replace (j - length (d ++ [x]))%nat with 0%nat by (unfold j; lia).
      reflexivity. }
    rewrite E, skipn_skipn, length_skipn. unfold j.
    rewrite !length_app. cbn. f_equal. lia.
Qed.

Lemma deque_evicts (s : Z) (d l : list Z) :
  (length d <= HISTORY_MAXLEN)%nat -> (HISTORY_MAXLEN <= length l)%nat ->
  ~ In s l -> ~ In s (fold_left (fun h x => deque_append HISTORY_MAXLEN x h) l d).
Proof.
  intros Hd Hl Hs Hin.
  rewrite deque_append_fold in Hin by (unfold HISTORY_MAXLEN in *; lia).
  rewrite skipn_app, length_app in Hin.
  replace (length d + length l - HISTORY_MAXLEN - length d)%nat
    with (length l - HISTORY_MAXLEN)%nat in Hin by lia.
  rewrite skipn_all2 in Hin by lia. cbn in Hin.
  apply Hs. eapply (proj1 (Forall_forall (fun y => In y l) _)); [| exact Hin].
  apply Forall_forall. intros y Hy. rewrite <- (firstn_skipn (length l - HISTORY_MAXLEN) l).
  apply in_or_app. right. exact Hy.
Qed.

(** C5 (as the code has it): a sequence still held in the bounded history
    ([deque(maxlen=500)]) is classified duplicate, bumps the duplicate
    counter and leaves [last_processed_seq] and the history unchanged; once
    500 values other than it have been appended after it, it is no longer in
    the history. *)
Theorem duplicate_within_history :
  (forall (d : device) (p : packet),
     In (p_seq p) (processed_seqs d) ->
     let '(d', rows) := process_and_log_packet d p in
     last_processed_seq d' = last_processed_seq d /\
     processed_seqs d' = processed_seqs d /\
     duplicates (dstats d') = duplicates (dstats d) + 1 /\
     Forall (fun r => p_duplicate (row_pkt r) = true) rows) /\
  (forall (s : Z) (h l : list Z),
     (length h <= HISTORY_MAXLEN)%nat -> (HISTORY_MAXLEN <= length l)%nat ->
     ~ In s l ->
     ~ In s (fold_left (fun h x => deque_append HISTORY_MAXLEN x h) l h)).
Proof.
  split.
  - intros d p Hin. rewrite process_dup by (apply existsb_In_true; exact Hin).
    cbn. repeat split.
    apply Forall_forall. intros r Hr. apply log_rows_pkt in Hr. rewrite Hr. reflexivity.
  - exact deque_evicts.
Qed.

Lemma duplicate_within_history_witness :
  (let d := tracker_device (Some 3) [1; 2; 3] in
   let '(d', rows) := process_and_log_packet d (sample_packet 2 0) in
   last_processed_seq d' = last_processed_seq d /\
   processed_seqs d' = processed_seqs d /\
   duplicates (dstats d') = duplicates (dstats d) + 1 /\
   Forall (fun r => p_duplicate (row_pkt r) = true) rows) /\
  ~ In 0 (fold_left (fun h x => deque_append HISTORY_MAXLEN x h) seqs_1_500 [0]).
Proof.
  split.
  - apply (proj1 duplicate_within_history (tracker_device (Some 3) [1; 2; 3]) (sample_packet 2 0)).
    cbn. right; left; reflexivity.
  - apply (proj2 duplicate_within_history).
    + cbn. unfold HISTORY_MAXLEN. lia.
    + unfold seqs_1_500, HISTORY_MAXLEN. rewrite length_map, length_seq. lia.
    + unfold seqs_1_500. intros H. apply in_map_iff in H as [n [Hn Hs]].
      apply in_seq in Hs. lia.
Defined.

(** C5 counterexample: sequence 0 is finalized, then 1..500; finalizing 0
    again is not classified duplicate (its row has [duplicate = False]) and
    the duplicate counter stays 0. *)
Lemma duplicate_counterexample :
  let ps := map (fun s => sample_packet s s) (0 :: seqs_1_500) ++ [sample_packet 0 501] in
  let '(d', rows) := process_all (tracker_device None []) ps in
  option_map (fun r => p_duplicate (row_pkt r)) (hd_error (rev rows)) = Some false /\
  duplicates (dstats d') = 0.
Proof. vm_compute. split; reflexivity. Qed.

(** ** Reordering buffer *)

Lemma ts_le_trans : Transitive ts_le.
Proof. unfold Transitive, ts_le. intros; lia. Qed.

Lemma insert_by_ts_sorted (x : packet) (l : list packet) :
  Sorted ts_le l -> Sorted ts_le (insert_by_ts x l).
Proof.
  induction l as [|y r IH]; intros H; cbn.
  - repeat constructor.
  - destruct (Z.ltb_spec (p_timestamp_sent x) (p_timestamp_sent y)) as [Hlt|Hge].
    + constructor; [exact H | constructor; unfold ts_le; lia].
    + inversion H as [|? ? Hr Hhd]; subst. constructor; [apply IH; exact Hr |].
      destruct r as [|z r']; cbn.
      * constructor. unfold ts_le; lia.
      * inversion Hhd; subst.
        destruct (p_timestamp_sent x <? p_timestamp_sent z);
          constructor; unfold ts_le in *; lia.
Qed.

Lemma insert_by_ts_perm (x : packet) (l : list packet) :
  Permutation (insert_by_ts x l) (x :: l).
Proof.
  induction l as [|y r IH]; cbn; [reflexivity |].
  destruct (p_timestamp_sent x <? p_timestamp_sent y); [reflexivity |].
  rewrite IH. apply perm_swap.
Qed.

Lemma sort_by_ts_spec_aux (l acc : list packet) :
  Sorted ts_le acc ->
  Sorted ts_le (fold_left (fun acc x => insert_by_ts x acc) l acc) /\
  Permutation (fold_left (fun acc x => insert_by_ts x acc) l acc) (l ++ acc).
Proof.
  revert acc. induction l as [|x l IH]; intros acc H; cbn; [split; [exact H | reflexivity] |].
  destruct (IH (insert_by_ts x acc)) as [Hs Hp]; [apply insert_by_ts_sorted; exact H |].
  split; [exact Hs |]. rewrite Hp, insert_by_ts_perm. symmetry. apply Permutation_middle.
Qed.

Lemma sort_by_ts_spec (l : list packet) :
  Sorted ts_le (sort_by_ts l) /\ Permutation (sort_by_ts l) l.
Proof.
  unfold sort_by_ts. destruct (sort_by_ts_spec_aux l [] (Sorted_nil _)) as [Hs Hp]. split; [exact Hs |].
  rewrite Hp, app_nil_r. reflexivity.
Qed.

(** [process_and_log_packet] does not touch the buffer. *)
Lemma process_with_buffer (b : list packet) (d : device) (p : packet) :
  process_and_log_packet (with_buffer b d) p =
    (with_buffer b (fst (process_and_log_packet d p)),
     snd (process_and_log_packet d p)).
Proof.
  unfold process_and_log_packet. cbn.
  destruct (existsb _ _); [| destruct (gap_of _ _) as [[|] gc]]; reflexivity.
Qed.

Lemma with_buffer_twice (b b' : list packet) (d : device) :
  with_buffer b (with_buffer b' d) = with_buffer b d.
Proof. reflexivity. Qed.

Lemma buffer_with_buffer (b : list packet) (d : device) : buffer (with_buffer b d) = b.
Proof. reflexivity. Qed.

(** The drain loop pops a prefix [fin] of the sorted buffer, finalizes it
    in order, and stops with at most [flush_threshold] entries left;
    it raises only for a negative threshold. *)
Lemma drain_spec (flush_threshold : Z) (buf : list packet) (d : device) :
  Sorted ts_le buf ->
  match drain flush_threshold buf (with_buffer buf d) with
  | Some (d', rows) =>
      exists fin,
        buf = fin ++ buffer d' /\
        Sorted ts_le (buffer d') /\
        Z.of_nat (length (buffer d')) <= flush_threshold /\
        (forall p q, In p fin -> In q (buffer d') -> ts_le p q) /\
        process_all (with_buffer (buffer d') d) fin = (d', rows)
  | None => flush_threshold < 0
  end.
Proof.
  revert d. induction buf as [|p rest IH]; intros d Hs; cbn [drain].
  - destruct (Z.gtb_spec (Z.of_nat (length (@nil packet))) flush_threshold) as [H|H];
      cbn in *; [lia |].
    exists []. repeat split; cbn; auto; lia.
  - destruct (Z.gtb_spec (Z.of_nat (length (p :: rest))) flush_threshold) as [H|H].
    + rewrite with_buffer_twice, process_with_buffer.
      destruct (process_and_log_packet d p) as [d1 l1] eqn:E1. cbn [fst snd].
      pose proof (Sorted_inv Hs) as [Hr Hhd].
      specialize (IH d1 Hr).
      destruct (drain flush_threshold rest (with_buffer rest d1)) as [[d2 l2]|]; [| exact IH].
      destruct IH as [fin [Hb [Hs2 [Hlen [Hle Hp]]]]].
      exists (p :: fin). split; [rewrite Hb; reflexivity |].
      split; [exact Hs2 |]. split; [exact Hlen |]. split.
      * intros x q [<-|Hx] Hq; [| apply Hle; assumption].
        apply Sorted_StronglySorted in Hs; [| exact ts_le_trans].
        apply StronglySorted_inv in Hs as [_ Hall].
        rewrite Forall_forall in Hall. apply Hall. rewrite Hb. apply in_or_app. right. exact Hq.
      * cbn. rewrite process_with_buffer, E1. cbn. rewrite Hp. reflexivity.
    + exists []. split; [reflexivity |]. split; [exact Hs |].
      split; [cbn in *; lia |]. split; [intros ? ? [] |]. reflexivity.
Qed.

(** The drain loop stops as soon as the buffer is back within the
    threshold: [min (length buf) flush_threshold] entries are left. *)
Lemma drain_length (flush_threshold : Z) (buf : list packet) (d : device) :
  match drain flush_threshold buf (with_buffer buf d) with
  | Some (d', _) =>
      Z.of_nat (length (buffer d')) = Z.min (Z.of_nat (length buf)) flush_threshold
  | None => True
  end.
Proof.
  revert d. induction buf as [|p rest IH]; intros d; cbn [drain].
  - destruct (Z.gtb_spec (Z.of_nat (length (@nil packet))) flush_threshold) as [H|H];
      [exact I |]. cbn in *. lia.
  - destruct (Z.gtb_spec (Z.of_nat (length (p :: rest))) flush_threshold) as [H|H].
    + rewrite with_buffer_twice, process_with_buffer.
      destruct (process_and_log_packet d p) as [d1 l1]. cbn [fst snd].
      specialize (IH d1).
      destruct (drain flush_threshold rest (with_buffer rest d1)) as [[d2 l2]|]; [| exact I].
      cbn [length] in *. rewrite IH. lia.
    + cbn [buffer with_buffer]. lia.
Qed.

Lemma lookup_put (k : Z) (v : device) (ds : devices) : lookup k (put k v ds) = Some v.
Proof.
  induction ds as [|[k' d] rest IH]; cbn; [rewrite Z.eqb_refl; reflexivity |].
  destruct (Z.eqb_spec k k') as [->|Hne]; cbn; [rewrite Z.eqb_refl; reflexivity |].
  apply Z.eqb_neq in Hne. rewrite Hne. exact IH.
Qed.

Lemma lookup_put_other (k k' : Z) (v : device) (ds : devices) :
  k <> k' -> lookup k (put k' v ds) = lookup k ds.
Proof.
  intros Hne. induction ds as [|[k'' d] rest IH]; cbn.
  - apply Z.eqb_neq in Hne. rewrite Hne. reflexivity.
  - destruct (Z.eqb_spec k' k'') as [->|Hne']; cbn.
    + apply Z.eqb_neq in Hne. rewrite Hne. reflexivity.
    + destruct (k =? k''); [reflexivity | exact IH].
Qed.

(** C6: after an arrival the device buffer is [buffer ++ [entry]] sorted by
    send time; the drain loop pops and finalizes its smallest entries in
    order while it is longer than [flush_threshold] and stops as soon as it
    is within it, leaving a sorted buffer of exactly
    [min(len(buffer), flush_threshold)] entries (a negative threshold makes
    [pop(0)] raise instead).  With threshold 2 the send times 10, 30, 20
    (followed by 40 and 50) are finalized as 10, 20, 30. *)
Theorem arrival_buffer_sorted_bounded (flush_threshold arrival_time : Z)
    (data : list Z) (ds : devices) (device_id : Z) (state : device) (entry : packet) :
  arrive arrival_time data ds = Some (device_id, state, entry) ->
  let buf := sort_by_ts (buffer state ++ [entry]) in
  Sorted ts_le buf /\ Permutation buf (buffer state ++ [entry]) /\
  match handle_datagram flush_threshold arrival_time data ds with
  | Some (ds', rows) =>
      exists d' fin,
        lookup device_id ds' = Some d' /\
        buf = fin ++ buffer d' /\
        Sorted ts_le (buffer d') /\
        Z.of_nat (length (buffer d')) <= flush_threshold /\
        Z.of_nat (length (buffer d')) = Z.min (Z.of_nat (length buf)) flush_threshold /\
        (forall p q, In p fin -> In q (buffer d') -> ts_le p q) /\
        process_all (with_buffer (buffer d') state) fin = (d', rows)
  | None => flush_threshold < 0
  end /\
  option_map (fun '(_, rows) => map (fun r => p_timestamp_sent (row_pkt r)) rows)
    (receive_all 2 reorder_events []) = Some [10; 20; 30].
Proof.
  intros Ha buf. destruct (sort_by_ts_spec (buffer state ++ [entry])) as [Hs Hp].
  split; [exact Hs |]. split; [exact Hp |]. split.
  - unfold handle_datagram. rewrite Ha. fold buf.
    pose proof (drain_spec flush_threshold buf state Hs) as H.
    pose proof (drain_length flush_threshold buf state) as Hm.
    destruct (drain flush_threshold buf (with_buffer buf state)) as [[d' rows]|]; [| exact H].
    destruct H as [fin (H1 & H2 & H3 & H4 & H5)]. exists d', fin.
    split; [apply lookup_put |]. repeat split; assumption.
  - vm_compute. reflexivity.
Qed.

Lemma arrival_buffer_sorted_bounded_witness :
  match receive_all 2 (firstn 2 reorder_events) [] with
  | Some (ds0, _) =>
      option_map (fun d => length (buffer d)) (lookup 7 ds0) = Some 2%nat /\
      match arrive (TIMESTAMP_OFFSET * 1000 + 300) (datagram 7 2 20 2 []) ds0 with
      | Some (device_id, state, entry) =>
          let buf := sort_by_ts (buffer state ++ [entry]) in
          Sorted ts_le buf /\ Permutation buf (buffer state ++ [entry]) /\
          match handle_datagram 2 (TIMESTAMP_OFFSET * 1000 + 300) (datagram 7 2 20 2 []) ds0 with
          | Some (ds', rows) =>
              exists d' fin,
                lookup device_id ds' = Some d' /\
                buf = fin ++ buffer d' /\
                Sorted ts_le (buffer d') /\
                Z.of_nat (length (buffer d')) <= 2 /\
                Z.of_nat (length (buffer d')) = Z.min (Z.of_nat (length buf)) 2 /\
                (forall p q, In p fin -> In q (buffer d') -> ts_le p q) /\
                process_all (with_buffer (buffer d') state) fin = (d', rows)
          | None => 2 < 0
          end /\
          option_map (fun '(_, rows) => map (fun r => p_timestamp_sent (row_pkt r)) rows)
            (receive_all 2 reorder_events []) = Some [10; 20; 30]
      | None => False
      end
  | None => False
  end.
Proof.
  destruct (receive_all 2 (firstn 2 reorder_events) []) as [[ds0 r0]|] eqn:E0;
    vm_compute in E0; [| discriminate].
  injection E0 as <- _. split; [reflexivity |].
  destruct (arrive (TIMESTAMP_OFFSET * 1000 + 300) (datagram 7 2 20 2 []) _)
    as [[[i st] e]|] eqn:E; [| vm_compute in E; discriminate].
  exact (arrival_buffer_sorted_bounded 2 _ _ _ i st e E).
Defined.

(** ** The arrival step *)

Lemma arrive_inv (arrival_time : Z) (data : list Z) (ds : devices)
    (device_id : Z) (state : device) (entry : packet) :
  arrive arrival_time data ds = Some (device_id, state, entry) ->
  let prev := prior_state device_id arrival_time ds in
  let latency_ms := latency_of arrival_time (ts_sent_of data) in
  (HEADER_SIZE + 2 <= length data)%nat /\ checksum_ok data = true /\
  device_id = device_id_of data /\
  p_timestamp_sent entry = ts_sent_of data /\
  p_latency entry = latency_ms /\
  p_jitter entry = jitter_of (last_latency prev) latency_ms /\
  p_readings entry =
    (if (msg_type_of data =? MSG_DATA) && (0 <? length (payload_of data))%nat
     then parse_readings (payload_of data) else []) /\
  last_seen state = arrival_time /\ status_alive state = true /\
  last_latency state = latency_ms /\ buffer state = buffer prev.
Proof.
  unfold arrive, checksum_ok, payload_of.
  destruct (Nat.ltb_spec (length data) (HEADER_SIZE + 2)) as [Hl|Hl]; [discriminate |].
  destruct (compute_checksum _ =? _) eqn:Hc; cbn [negb]; [| discriminate].
  intros H. injection H as <- <- <-. cbv zeta.
  unfold prior_state, device_id_of, ts_sent_of, msg_type_of.
  destruct (Z.land (nth 8 data 0) 15 =? MSG_INIT); cbn; repeat split; auto.
Qed.

Lemma arrive_some (arrival_time : Z) (data : list Z) (ds : devices) :
  (HEADER_SIZE + 2 <= length data)%nat -> checksum_ok data = true ->
  exists state entry, arrive arrival_time data ds = Some (device_id_of data, state, entry).
Proof.
  intros Hl Hc. unfold arrive. unfold checksum_ok, payload_of in Hc.
  replace (length data <? HEADER_SIZE + 2)%nat with false by (symmetry; apply Nat.ltb_ge; exact Hl).
  cbv zeta. rewrite Hc. cbn [negb]. eexists _, _. reflexivity.
Qed.

(** ** Metrics *)

(** Finalization leaves the per-device scalars that the arrival step owns. *)
Lemma process_keeps_scalars (d : device) (p : packet) :
  let d' := fst (process_and_log_packet d p) in
  buffer d' = buffer d /\ last_latency d' = last_latency d /\
  last_seen d' = last_seen d /\ status_alive d' = status_alive d.
Proof.
  unfold process_and_log_packet. cbn.
  destruct (existsb _ _); [| destruct (gap_of _ _) as [[|] gc]]; cbn; auto.
Qed.

Lemma process_all_keeps_scalars (d : device) (ps : list packet) :
  let d' := fst (process_all d ps) in
  buffer d' = buffer d /\ last_latency d' = last_latency d /\
  last_seen d' = last_seen d /\ status_alive d' = status_alive d.
Proof.
  revert d. induction ps as [|p ps IH]; intros d; cbn; [auto |].
  destruct (process_and_log_packet d p) as [d1 l1] eqn:E.
  destruct (process_all d1 ps) as [d2 l2] eqn:E2. cbn.
  pose proof (process_keeps_scalars d p) as H. rewrite E in H. cbn in H.
  specialize (IH d1). rewrite E2 in IH. cbn in IH. intuition congruence.
Qed.


(** C8: the latency stored in the packet entry is the receiver's masked
    relative milliseconds minus the sender's 32-bit timestamp, corrected by
    [2^32] below [-2^31] and clamped at 0; sender 4294967290 and receiver 5
    (after masking) give 11. *)
Theorem latency_wraparound (arrival_time : Z) (data : list Z) (ds : devices)
    (device_id : Z) (state : device) (entry : packet) :
  arrive arrival_time data ds = Some (device_id, state, entry) ->
  let recv := Z.land (arrival_time - TIMESTAMP_OFFSET * 1000) (2 ^ 32 - 1) in
  let raw := recv - ts_sent_of data in
  0 <= recv < 2 ^ 32 /\
  p_latency entry = (if raw <? - 2 ^ 31 then Z.max 0 (raw + 2 ^ 32) else Z.max 0 raw) /\
  (Forall (fun b => 0 <= b < 256) data -> 0 <= ts_sent_of data < 2 ^ 32) /\
  option_map (fun '(ds', _) =>
      option_map (fun d => map p_latency (buffer d)) (lookup 1 ds'))
    (handle_datagram 20 (TIMESTAMP_OFFSET * 1000 + 2 ^ 32 + 5)
       (datagram 1 1 4294967290 1 []) []) = Some (Some [11]).
Proof.
  intros Ha. apply arrive_inv in Ha.
  destruct Ha as (_ & _ & _ & _ & Hlat & _). cbv zeta.
  split; [| split; [| split]].
  - replace (2 ^ 32 - 1) with (Z.ones 32) by reflexivity.
    rewrite Z.land_ones by lia. apply Z.mod_pos_bound. lia.
  - rewrite Hlat. unfold latency_of, arrival_ms_masked.
    destruct (_ <? _); reflexivity.
  - intros Hb. unfold ts_sent_of, be32.
    assert (Hn : forall n, 0 <= nth n data 0 < 256).
    { intros n. destruct (Nat.lt_ge_cases n (length data)) as [Hn|Hn].
      - rewrite Forall_forall in Hb. apply Hb, nth_In, Hn.
      - rewrite nth_overflow by exact Hn. lia. }
    pose proof (Hn 4%nat). pose proof (Hn 5%nat). pose proof (Hn 6%nat).
    pose proof (Hn 7%nat). lia.
  - vm_compute. reflexivity.
Qed.

Lemma latency_wraparound_witness :
  match arrive (TIMESTAMP_OFFSET * 1000 + 2 ^ 32 + 5) sample_datagram [] with
  | Some (device_id, state, entry) =>
      arrive (TIMESTAMP_OFFSET * 1000 + 2 ^ 32 + 5) sample_datagram [] =
        Some (device_id, state, entry) /\
      (let recv := Z.land (TIMESTAMP_OFFSET * 1000 + 2 ^ 32 + 5 - TIMESTAMP_OFFSET * 1000) (2 ^ 32 - 1) in
       let raw := recv - ts_sent_of sample_datagram in
       0 <= recv < 2 ^ 32 /\
       p_latency entry = (if raw <? - 2 ^ 31 then Z.max 0 (raw + 2 ^ 32) else Z.max 0 raw) /\
       (Forall (fun b => 0 <= b < 256) sample_datagram -> 0 <= ts_sent_of sample_datagram < 2 ^ 32) /\
       option_map (fun '(ds', _) =>
           option_map (fun d => map p_latency (buffer d)) (lookup 1 ds'))
         (handle_datagram 20 (TIMESTAMP_OFFSET * 1000 + 2 ^ 32 + 5)
            (datagram 1 1 4294967290 1 []) []) = Some (Some [11]))
  | None => False
  end.
Proof.
  destruct (arrive (TIMESTAMP_OFFSET * 1000 + 2 ^ 32 + 5) sample_datagram [])
    as [[[i st] e]|] eqn:E.
  - split; [reflexivity | exact (latency_wraparound _ _ _ _ _ _ E)].
  - vm_compute in E. discriminate.
Defined.




(** The device stored after an arrival keeps the scalars the arrival step
    set: draining the buffer does not touch them. *)
Lemma handle_datagram_device (flush_threshold arrival_time : Z) (data : list Z)
    (ds ds1 : devices) (rows : list log_row)
    (device_id : Z) (state : device) (entry : packet) :
  arrive arrival_time data ds = Some (device_id, state, entry) ->
  handle_datagram flush_threshold arrival_time data ds = Some (ds1, rows) ->
  exists d1, ds1 = put device_id d1 ds /\
    last_seen d1 = last_seen state /\ status_alive d1 = status_alive state /\
    last_latency d1 = last_latency state.
Proof.
  intros Ha Hh. unfold handle_datagram in Hh. rewrite Ha in Hh.
  set (buf := sort_by_ts (buffer state ++ [entry])) in Hh.
  destruct (sort_by_ts_spec (buffer state ++ [entry])) as [Hs _].
  pose proof (drain_spec flush_threshold buf state Hs) as H.
  destruct (drain flush_threshold buf (with_buffer buf state)) as [[d' r]|]; [| discriminate].
  injection Hh as <- <-. destruct H as [fin (_ & _ & _ & _ & Hp)].
  exists d'. split; [reflexivity |].
  pose proof (process_all_keeps_scalars (with_buffer (buffer d') state) fin) as K.
  rewrite Hp in K. cbn in K. destruct K as (_ & K1 & K2 & K3). auto.
Qed.

(** C10: every datagram that passes the length and checksum checks sets
    its device's [last_seen] to the arrival time, marks it alive and
    overwrites [last_latency] with its latency, whatever its later
    classification; the next datagram of that device takes its jitter from
    this latency. *)
Theorem arrival_updates_device (flush_threshold arrival_time : Z) (data : list Z)
    (ds ds1 : devices) (rows : list log_row)
    (device_id : Z) (state : device) (entry : packet) :
  arrive arrival_time data ds = Some (device_id, state, entry) ->
  handle_datagram flush_threshold arrival_time data ds = Some (ds1, rows) ->
  exists d1, lookup device_id ds1 = Some d1 /\
    last_seen d1 = arrival_time /\ status_alive d1 = true /\
    last_latency d1 = p_latency entry /\
    (forall t2 data2 state2 entry2,
       arrive t2 data2 ds1 = Some (device_id, state2, entry2) ->
       p_jitter entry2 =
         (if p_latency entry >? 0 then Z.abs (p_latency entry2 - p_latency entry) else 0)).
Proof.
  intros Ha Hh.
  destruct (handle_datagram_device _ _ _ _ _ _ _ _ _ Ha Hh) as [d1 (-> & K1 & K2 & K3)].
  apply arrive_inv in Ha. destruct Ha as (_ & _ & _ & _ & Hl & _ & _ & Hs & Hal & Hll & _).
  exists d1. rewrite lookup_put. split; [reflexivity |].
  split; [congruence |]. split; [congruence |]. split; [congruence |].
  intros t2 data2 st2 e2 Ha2. apply arrive_inv in Ha2.
  destruct Ha2 as (_ & _ & _ & _ & Hl2 & Hj2 & _).
  unfold prior_state in Hj2. rewrite lookup_put in Hj2.
  rewrite Hj2, Hl2, K3, Hll, Hl. reflexivity.
Qed.

Lemma arrival_updates_device_witness :
  match arrive (TIMESTAMP_OFFSET * 1000 + 5) sample_datagram dev1_seen,
        handle_datagram 0 (TIMESTAMP_OFFSET * 1000 + 5) sample_datagram dev1_seen with
  | Some (device_id, state, entry), Some (ds1, rows) =>
      map (fun r => p_duplicate (row_pkt r)) rows = [true] /\
      exists d1, lookup device_id ds1 = Some d1 /\
        last_seen d1 = TIMESTAMP_OFFSET * 1000 + 5 /\ status_alive d1 = true /\
        last_latency d1 = p_latency entry /\
        (forall t2 data2 state2 entry2,
           arrive t2 data2 ds1 = Some (device_id, state2, entry2) ->
           p_jitter entry2 =
             (if p_latency entry >? 0 then Z.abs (p_latency entry2 - p_latency entry) else 0))
  | _, _ => False
  end.
Proof.
  destruct (arrive (TIMESTAMP_OFFSET * 1000 + 5) sample_datagram dev1_seen)
    as [[[i st] e]|] eqn:E; [| vm_compute in E; discriminate].
  destruct (handle_datagram 0 (TIMESTAMP_OFFSET * 1000 + 5) sample_datagram dev1_seen)
    as [[ds1 rows]|] eqn:H; [| vm_compute in H; discriminate].
  split; [vm_compute in H; injection H as _ <-; reflexivity |].
  exact (arrival_updates_device _ _ _ _ _ _ _ _ _ E H).
Defined.

(** ** Payload parsing *)

Lemma reading_fits (len i : nat) :
  (1 + i * 12 + 12 <= len)%nat <-> (i < (len - 1) / 12)%nat.
Proof.
  pose proof (Nat.div_mod (len - 1) 12 ltac:(lia)) as Hd.
  pose proof (Nat.mod_upper_bound (len - 1) 12 ltac:(lia)) as Hm.
  set (q := ((len - 1) / 12)%nat) in *. set (r := ((len - 1) mod 12)%nat) in *.
  split; intros H; lia.
Qed.

Lemma parse_readings_spec (payload : list Z) :
  parse_readings payload =
    map (fun i => slice (1 + i * 12) (1 + i * 12 + 12) payload)
      (seq 0 (Nat.min (Z.to_nat (nth 0 payload 0)) ((length payload - 1) / 12))).
Proof.
  unfold parse_readings. generalize (Z.to_nat (nth 0 payload 0)) as n.
  induction n as [|n IH]; [reflexivity |].
  rewrite seq_S, flat_map_app, IH. change (0 + n)%nat with n.
  cbn [flat_map]. rewrite app_nil_r.
  destruct (Nat.leb_spec (1 + n * 12 + 12) (length payload)) as [H|H].
  - apply reading_fits in H.
    replace (Nat.min (S n) ((length payload - 1) / 12)) with (S n) by lia.
    replace (Nat.min n ((length payload - 1) / 12)) with n by lia.
    rewrite seq_S, map_app. reflexivity.
  - assert (~ (n < (length payload - 1) / 12)%nat) by (rewrite <- reading_fits; lia).
    rewrite app_nil_r. f_equal. f_equal. lia.
Qed.

Lemma parse_readings_length (payload : list Z) :
  Forall (fun r => length r = 12%nat) (parse_readings payload).
Proof.
  rewrite parse_readings_spec. apply Forall_forall. intros r Hr.
  apply in_map_iff in Hr as [i [<- Hi]]. apply in_seq in Hi.
  assert (Hf : (1 + i * 12 + 12 <= length payload)%nat) by (apply reading_fits; lia).
  unfold slice. rewrite length_firstn, length_skipn. lia.
Qed.

(** C9: a DATA datagram whose count byte promises more readings than its
    payload holds is still accepted; its entry keeps the fully present
    12-byte readings, in order, and drops the truncated tail. *)
Theorem truncated_batch_keeps_complete_readings (arrival_time : Z) (data : list Z)
    (ds : devices) :
  (HEADER_SIZE + 2 <= length data)%nat -> checksum_ok data = true ->
  msg_type_of data = MSG_DATA -> (0 < length (payload_of data))%nat ->
  let payload := payload_of data in
  let kept := Nat.min (Z.to_nat (nth 0 payload 0)) ((length payload - 1) / 12) in
  exists state entry,
    arrive arrival_time data ds = Some (device_id_of data, state, entry) /\
    p_readings entry = map (fun i => slice (1 + i * 12) (1 + i * 12 + 12) payload) (seq 0 kept) /\
    Forall (fun r => length r = 12%nat) (p_readings entry).
Proof.
  intros Hl Hc Hm Hp. cbv zeta.
  destruct (arrive_some arrival_time data ds Hl Hc) as [st [e Ha]].
  exists st, e. split; [exact Ha |].
  apply arrive_inv in Ha. destruct Ha as (_ & _ & _ & _ & _ & _ & Hr & _).
  rewrite Hm, Z.eqb_refl in Hr. cbn [andb] in Hr.
  replace (0 <? length (payload_of data))%nat with true in Hr
    by (symmetry; apply Nat.ltb_lt; exact Hp).
  rewrite Hr. split; [apply parse_readings_spec | apply parse_readings_length].
Qed.

Lemma truncated_batch_keeps_complete_readings_witness :
  (HEADER_SIZE + 2 <= length truncated_datagram)%nat /\
  checksum_ok truncated_datagram = true /\
  msg_type_of truncated_datagram = MSG_DATA /\
  (0 < length (payload_of truncated_datagram))%nat /\
  exists state entry,
    arrive 0 truncated_datagram [] = Some (device_id_of truncated_datagram, state, entry) /\
    p_readings entry = [repeat 65 12] /\
    Forall (fun r => length r = 12%nat) (p_readings entry).
Proof.
  assert (Hl : (HEADER_SIZE + 2 <= length truncated_datagram)%nat) by (vm_compute; lia).
  assert (Hc : checksum_ok truncated_datagram = true) by (vm_compute; reflexivity).
  assert (Hm : msg_type_of truncated_datagram = MSG_DATA) by (vm_compute; reflexivity).
  assert (Hp : (0 < length (payload_of truncated_datagram))%nat) by (vm_compute; lia).
  split; [exact Hl |]. split; [exact Hc |]. split; [exact Hm |]. split; [exact Hp |].
  destruct (truncated_batch_keeps_complete_readings 0 truncated_datagram [] Hl Hc Hm Hp)
    as [st [e (Ha & Hr & Hf)]].
  exists st, e. split; [exact Ha |]. split; [| exact Hf].
  rewrite Hr. vm_compute. reflexivity.
Defined.

(** ** Liveness *)

Lemma pop_all_spec (b : list packet) (d : device) :
  pop_all b (with_buffer b d) =
    process_all (with_buffer [] d) (map (set_status Flushed_Timeout) b).
Proof.
  revert d. induction b as [|p rest IH]; intros d; [reflexivity |].
  cbn [pop_all map process_all].
  change (with_buffer rest (with_buffer (p :: rest) d)) with (with_buffer rest d).
  rewrite (process_with_buffer rest d), (process_with_buffer [] d).
  destruct (process_and_log_packet d (set_status Flushed_Timeout p)) as [d1 l1]. cbn [fst snd].
  rewrite IH. reflexivity.
Qed.

Lemma lookup_liveness_check (timeout now k : Z) (ds : devices) :
  lookup k (fst (liveness_check timeout now ds)) =
    option_map (fun d => fst (liveness_check_device timeout now d)) (lookup k ds).
Proof.
  induction ds as [|[k' d] rest IH]; [reflexivity |]. cbn.
  destruct (liveness_check_device timeout now d) as [d' l1] eqn:E.
  destruct (liveness_check timeout now rest) as [rest' l2]. cbn in *.
  destruct (k =? k'); [cbn; rewrite E; reflexivity | exact IH].
Qed.

(** C7: the sweep marks an alive device that has been silent longer than
    the timeout dead and finalizes its whole buffer in send-time order
    (tagged [Flushed (Timeout)]), whatever the buffer's size; a dead device
    is left alone by later sweeps, so it is marked dead once; the next
    datagram received for it (one that passes the length and checksum
    checks, the others being dropped as not received) marks it alive. *)
Theorem liveness_transitions :
  (forall (timeout now k : Z) (ds : devices),
     lookup k (fst (liveness_check timeout now ds)) =
       option_map (fun d => fst (liveness_check_device timeout now d)) (lookup k ds)) /\
  (forall (timeout now : Z) (d : device),
     status_alive d = true -> now - last_seen d > timeout ->
     let b := sort_by_ts (buffer d) in
     Sorted ts_le b /\ Permutation b (buffer d) /\
     liveness_check_device timeout now d =
       process_all (with_buffer [] (set_liveness (last_seen d) false d))
         (map (set_status Flushed_Timeout) b) /\
     status_alive (fst (liveness_check_device timeout now d)) = false /\
     buffer (fst (liveness_check_device timeout now d)) = []) /\
  (forall (timeout now : Z) (d : device),
     status_alive d = false -> liveness_check_device timeout now d = (d, [])) /\
  (forall (flush_threshold arrival_time : Z) (data : list Z) (ds ds1 : devices)
          (rows : list log_row) (device_id : Z) (state : device) (entry : packet),
     arrive arrival_time data ds = Some (device_id, state, entry) ->
     handle_datagram flush_threshold arrival_time data ds = Some (ds1, rows) ->
     exists d1, lookup device_id ds1 = Some d1 /\ status_alive d1 = true).
Proof.
  split; [exact lookup_liveness_check |].
  split; [| split].
  - intros timeout now d Ha Ht b.
    destruct (sort_by_ts_spec (buffer d)) as [Hs Hp].
    assert (E : liveness_check_device timeout now d =
                process_all (with_buffer [] (set_liveness (last_seen d) false d))
                  (map (set_status Flushed_Timeout) b)).
    { unfold liveness_check_device. rewrite Ha.
      replace (now - last_seen d >? timeout) with true by (symmetry; apply Z.gtb_lt; lia).
      cbn [buffer set_liveness]. destruct (buffer d) as [|p r] eqn:Eb.
      - subst b. cbn. destruct d; cbn in *; subst; reflexivity.
      - cbn [length Nat.ltb Nat.leb]. fold b.
        change (with_buffer b (set_liveness (last_seen d) false d))
          with (with_buffer b (set_liveness (last_seen d) false d)).
        rewrite pop_all_spec. reflexivity. }
    split; [exact Hs |]. split; [exact Hp |]. split; [exact E |].
    pose proof (process_all_keeps_scalars (with_buffer [] (set_liveness (last_seen d) false d))
                  (map (set_status Flushed_Timeout) b)) as K.
    rewrite E. cbn in K. destruct K as (Kb & _ & _ & Ka). split; assumption.
  - intros timeout now d Hd. unfold liveness_check_device. rewrite Hd. reflexivity.
  - intros thr t data ds ds1 rows id st e Ha Hh.
    destruct (handle_datagram_device _ _ _ _ _ _ _ _ _ Ha Hh) as [d1 (-> & _ & K2 & _)].
    apply arrive_inv in Ha. destruct Ha as (_ & _ & _ & _ & _ & _ & _ & _ & Hal & _).
    exists d1. split; [apply lookup_put | congruence].
Qed.

Lemma liveness_transitions_witness :
  (let b := sort_by_ts (buffer stale_device) in
   Sorted ts_le b /\ Permutation b (buffer stale_device) /\
   liveness_check_device 10 100 stale_device =
     process_all (with_buffer [] (set_liveness (last_seen stale_device) false stale_device))
       (map (set_status Flushed_Timeout) b) /\
   status_alive (fst (liveness_check_device 10 100 stale_device)) = false /\
   buffer (fst (liveness_check_device 10 100 stale_device)) = []) /\
  map (fun r => p_timestamp_sent (row_pkt r)) (snd (liveness_check_device 10 100 stale_device))
    = [10; 20] /\
  liveness_check_device 10 200 dead_device = (dead_device, []) /\
  option_map status_alive (lookup 7 dead7) = Some false /\
  match arrive 1000 (datagram 7 1 10 2 []) dead7,
        handle_datagram 20 1000 (datagram 7 1 10 2 []) dead7 with
  | Some (device_id, state, entry), Some (ds1, rows) =>
      exists d1, lookup device_id ds1 = Some d1 /\ status_alive d1 = true
  | _, _ => False
  end.
Proof.
  split; [apply (proj1 (proj2 liveness_transitions)); reflexivity |].
  split; [vm_compute; reflexivity |].
  split; [apply (proj1 (proj2 (proj2 liveness_transitions))); reflexivity |].
  split; [reflexivity |].
  destruct (arrive 1000 (datagram 7 1 10 2 []) dead7) as [[[i st] e]|] eqn:E;
    [| vm_compute in E; discriminate].
  destruct (handle_datagram 20 1000 (datagram 7 1 10 2 []) dead7) as [[ds1 rows]|] eqn:H;
    [| vm_compute in H; discriminate].
  exact (proj2 (proj2 (proj2 liveness_transitions)) _ _ _ _ _ _ _ _ _ E H).
Defined.

(** * Further properties of the server and its sender *)

(** ** Checksum *)

Lemma fold_add_acc (l : list Z) (a : Z) : fold_left Z.add l a = a + fold_left Z.add l 0.
Proof.
  revert a. induction l as [|x l IH]; intros a; cbn; [lia |].
  rewrite (IH (a + x)), (IH x). lia.
Qed.

Lemma fold_add_app (l1 l2 : list Z) :
  fold_left Z.add (l1 ++ l2) 0 = fold_left Z.add l1 0 + fold_left Z.add l2 0.
Proof. rewrite fold_left_app, fold_add_acc. reflexivity. Qed.

Lemma fold_add_perm (l l' : list Z) :
  Permutation l l' -> fold_left Z.add l 0 = fold_left Z.add l' 0.
Proof.
  induction 1 as [| x l l' _ IH | x y l | l l' l'' _ IH1 _ IH2]; cbn.
  - reflexivity.
  - rewrite (fold_add_acc l x), (fold_add_acc l' x). lia.
  - rewrite (fold_add_acc l (y + x)), (fold_add_acc l (x + y)). lia.
  - congruence.
Qed.

Lemma land_65535 (x : Z) : Z.land x 65535 = x mod 65536.
Proof. change 65535 with (Z.ones 16). rewrite Z.land_ones by lia. reflexivity. Qed.

(** X1: the checksum is a 16-bit value and does not depend on the order of
    the bytes: any reordering of the covered bytes goes undetected. *)
Theorem checksum_range_and_order_blind (l l' : list Z) :
  0 <= compute_checksum l < 65536 /\
  (Permutation l l' -> compute_checksum l = compute_checksum l').
Proof.
  unfold compute_checksum. rewrite !land_65535. split.
  - apply Z.mod_pos_bound. lia.
  - intros Hp. rewrite (fold_add_perm l l' Hp). reflexivity.
Qed.

Lemma arrive_accepts (arrival_time : Z) (data : list Z) (ds : devices) :
  arrive arrival_time data ds <> None <->
  (HEADER_SIZE + 2 <= length data)%nat /\ checksum_ok data = true.
Proof.
  split.
  - intros H. destruct (arrive arrival_time data ds) as [[[i st] e]|] eqn:E; [| congruence].
    apply arrive_inv in E. destruct E as (Hl & Hc & _). split; assumption.
  - intros [Hl Hc]. destruct (arrive_some arrival_time data ds Hl Hc) as (st & e & E).
    rewrite E. discriminate.
Qed.

Lemma checksum_ok_split (h p : list Z) (c1 c2 : Z) :
  length h = HEADER_SIZE ->
  checksum_ok (h ++ [c1; c2] ++ p) = (compute_checksum (h ++ p) =? be16 c1 c2).
Proof.
  intros Hh. unfold checksum_ok, payload_of, HEADER_SIZE in *.
  do 9 (destruct h as [|? h]; [discriminate | cbn in Hh; injection Hh as Hh]).
  destruct h; [| discriminate]. reflexivity.
Qed.

(** X2: a datagram the server accepts is rejected (dropped before any state
    is touched) once any single byte of its header or payload is changed to
    another byte value. *)
Theorem single_byte_change_rejected (arrival_time : Z) (ds : devices)
    (h p h' p' : list Z) (c1 c2 : Z) :
  length h = HEADER_SIZE -> length h' = HEADER_SIZE ->
  arrive arrival_time (h ++ [c1; c2] ++ p) ds <> None ->
  one_byte_change (h ++ p) (h' ++ p') ->
  arrive arrival_time (h' ++ [c1; c2] ++ p') ds = None.
Proof.
  intros Hh Hh' Hacc (a & b & b' & c & E & E' & Hne & Hb & Hb').
  apply arrive_accepts in Hacc as [_ Hc].
  rewrite checksum_ok_split in Hc by exact Hh. apply Z.eqb_eq in Hc.
  destruct (arrive arrival_time (h' ++ [c1; c2] ++ p') ds) eqn:A; [| reflexivity].
  exfalso. assert (Hacc' : arrive arrival_time (h' ++ [c1; c2] ++ p') ds <> None)
    by (rewrite A; discriminate).
  apply arrive_accepts in Hacc' as [_ Hc'].
  rewrite checksum_ok_split in Hc' by exact Hh'. apply Z.eqb_eq in Hc'.
  unfold compute_checksum in Hc, Hc'. rewrite land_65535 in Hc, Hc'.
  rewrite E in Hc. rewrite E' in Hc'.
  rewrite fold_add_app in Hc, Hc'. cbn [fold_left] in Hc, Hc'.
  rewrite (fold_add_acc c (0 + b)) in Hc. rewrite (fold_add_acc c (0 + b')) in Hc'.
  set (x := fold_left Z.add a 0 + fold_left Z.add c 0) in *.
  assert (Hm : (x + b) mod 65536 = (x + b') mod 65536).
  { replace (x + b) with (fold_left Z.add a 0 + (0 + b + fold_left Z.add c 0)) by (unfold x; lia).
    replace (x + b') with (fold_left Z.add a 0 + (0 + b' + fold_left Z.add c 0)) by (unfold x; lia).
    congruence. }
  pose proof (Z.div_mod (x + b) 65536 ltac:(lia)).
  pose proof (Z.div_mod (x + b') 65536 ltac:(lia)).
  lia.
Qed.

Lemma single_byte_change_rejected_witness :
  arrive 100 ([0; 1; 0; 2; 0; 0; 0; 7; 2] ++ [0; 12] ++ []) [] <> None /\
  one_byte_change ([0; 1; 0; 2; 0; 0; 0; 7; 2] ++ []) ([0; 1; 0; 3; 0; 0; 0; 7; 2] ++ []) /\
  arrive 100 ([0; 1; 0; 3; 0; 0; 0; 7; 2] ++ [0; 12] ++ []) [] = None.
Proof.
  assert (Hacc : arrive 100 ([0; 1; 0; 2; 0; 0; 0; 7; 2] ++ [0; 12] ++ []) [] <> None)
    by (vm_compute; discriminate).
  assert (Hch : one_byte_change ([0; 1; 0; 2; 0; 0; 0; 7; 2] ++ []) ([0; 1; 0; 3; 0; 0; 0; 7; 2] ++ []))
    by (exists [0; 1; 0], 2, 3, [0; 0; 0; 7; 2]; repeat split; try reflexivity; lia).
  split; [exact Hacc | split; [exact Hch |]].
  exact (single_byte_change_rejected 100 [] [0; 1; 0; 2; 0; 0; 0; 7; 2] [] [0; 1; 0; 3; 0; 0; 0; 7; 2] []
    0 12 eq_refl eq_refl Hacc Hch).
Defined.

(** ** Gap arithmetic *)

Ltac split_tests :=
  repeat match goal with
  | |- context [?a <? ?b] => destruct (Z.ltb_spec a b)
  | |- context [?a <=? ?b] => destruct (Z.leb_spec a b)
  | |- context [?a =? ?b] => destruct (Z.eqb_spec a b)
  end.

(** X3: for 16-bit sequence numbers, the gap counted between the last
    processed sequence [l] and a new sequence [s] is the forward distance
    from [l] to [s] modulo 65536, minus one; none is counted for the next
    sequence (also across the wrap 65535 -> 0) nor for a sequence at most
    [WRAP_THRESHOLD] behind [l]. *)
Theorem gap_of_16bit (l s : Z) :
  0 <= l < 65536 -> 0 <= s < 65536 ->
  gap_of (Some l) s =
    (if (- WRAP_THRESHOLD <=? s - l) && (s - l <=? 1) then (false, 0)
     else if (s - l) mod 65536 =? 1 then (false, 0)
     else (true, (s - l) mod 65536 - 1)) /\
  0 <= snd (gap_of (Some l) s) <= 65534.
Proof.
  intros Hl Hs. unfold gap_of, WRAP_THRESHOLD, SEQ_MAX. rewrite !Z.gtb_ltb.
  pose proof (Z.div_mod (s - l) 65536 ltac:(lia)) as Hd.
  pose proof (Z.mod_pos_bound (s - l) 65536 ltac:(lia)) as Hm.
  set (m := (s - l) mod 65536) in *. set (q := (s - l) / 65536) in *.
  split_tests; cbn [andb snd]; split; try (f_equal; lia); lia.
Qed.

Lemma gap_of_sign (last : option Z) (s : Z) :
  let '(g, gc) := gap_of last s in
  if g then 0 < gc else gc = 0.
Proof.
  unfold gap_of. destruct last as [l|]; [| reflexivity].
  rewrite !Z.gtb_ltb. split_tests; lia.
Qed.

Lemma gap_of_16bit_witness :
  (0 <= 65535 < 65536 /\ 0 <= 3 < 65536) /\
  (gap_of (Some 65535) 3 =
    (if (- WRAP_THRESHOLD <=? 3 - 65535) && (3 - 65535 <=? 1) then (false, 0)
     else if (3 - 65535) mod 65536 =? 1 then (false, 0)
     else (true, (3 - 65535) mod 65536 - 1)) /\
   0 <= snd (gap_of (Some 65535) 3) <= 65534).
Proof.
  split; [lia |]. exact (gap_of_16bit 65535 3 ltac:(lia) ltac:(lia)).
Defined.

(** ** The loop invariant *)

Lemma existsb_false_notin (s : Z) (h : list Z) :
  existsb (Z.eqb s) h = false -> ~ In s h.
Proof.
  intros E Hin. rewrite (existsb_In_true s h Hin) in E. discriminate.
Qed.

Lemma deque_append_nodup (m : nat) (x : Z) (d : list Z) :
  NoDup d -> ~ In x d -> NoDup (deque_append m x d).
Proof.
  intros Hd Hx. unfold deque_append.
  assert (H : NoDup (d ++ [x])).
  { apply (Permutation_NoDup (l := x :: d)); [| constructor; assumption].
    change (x :: d) with ([x] ++ d). apply Permutation_app_comm. }
  destruct (Nat.ltb _ _); [| exact H].
  destruct (d ++ [x]) as [|y r]; [constructor |]. cbn. inversion H; assumption.
Qed.

Lemma deque_append_in (m : nat) (x : Z) (d : list Z) :
  (0 < m)%nat -> In x (deque_append m x d).
Proof.
  intros Hm. unfold deque_append.
  destruct (Nat.ltb_spec m (length (d ++ [x]))) as [Hlt|_].
  - destruct d as [|y d].
    + cbn in Hlt. lia.
    + cbn. apply in_or_app. right. left. reflexivity.
  - apply in_or_app. right. left. reflexivity.
Qed.

Lemma tracker_process (d : device) (p : packet) :
  tracker_ok d -> tracker_ok (fst (process_and_log_packet d p)).
Proof.
  intros (Hn & Hl & Hlast & Hd & Hg).
  destruct (existsb (Z.eqb (p_seq p)) (processed_seqs d)) eqn:E.
  - rewrite (process_dup d p E). unfold tracker_ok; cbn. repeat split; auto; lia.
  - rewrite (process_nondup d p E).
    pose proof (gap_of_sign (last_processed_seq d) (p_seq p)) as Hgs.
    destruct (gap_of (last_processed_seq d) (p_seq p)) as [g gc]. unfold tracker_ok; cbn.
    split; [apply deque_append_nodup; [exact Hn | apply existsb_false_notin; exact E] |].
    split; [apply deque_append_length; exact Hl |].
    split; [intros s Hs; injection Hs as <-; apply deque_append_in; unfold HISTORY_MAXLEN; lia |].
    destruct g; lia.
Qed.

Lemma tracker_process_all (d : device) (ps : list packet) :
  tracker_ok d -> tracker_ok (fst (process_all d ps)).
Proof.
  revert d. induction ps as [|p ps IH]; intros d Hd; [exact Hd |]. cbn.
  pose proof (tracker_process d p Hd) as H1.
  destruct (process_and_log_packet d p) as [d1 l1]. cbn in H1.
  specialize (IH d1 H1). destruct (process_all d1 ps) as [d2 l2]. exact IH.
Qed.

Lemma tracker_with_buffer (b : list packet) (d : device) :
  tracker_ok d -> tracker_ok (with_buffer b d).
Proof. exact (fun H => H). Qed.

Lemma tracker_set_liveness (seen : Z) (alive : bool) (d : device) :
  tracker_ok d -> tracker_ok (set_liveness seen alive d).
Proof. exact (fun H => H). Qed.

Lemma tracker_set_last_latency (l : Z) (d : device) :
  tracker_ok d -> tracker_ok (set_last_latency l d).
Proof. exact (fun H => H). Qed.

Lemma tracker_reset (d : device) : tracker_ok d -> tracker_ok (reset_tracker d).
Proof.
  intros (_ & _ & _ & Hd & Hg). unfold tracker_ok, HISTORY_MAXLEN; cbn.
  repeat split; try constructor; try (intros ? ?; discriminate); cbn; lia.
Qed.

Lemma tracker_new_device (t : Z) : tracker_ok (new_device t).
Proof.
  unfold tracker_ok, HISTORY_MAXLEN; cbn.
  repeat split; try constructor; try (intros ? ?; discriminate); cbn; lia.
Qed.

Lemma liveness_device_ok (thr timeout now : Z) (d : device) :
  0 <= thr -> device_ok thr d -> device_ok thr (fst (liveness_check_device timeout now d)).
Proof.
  intros Hthr Hd. unfold liveness_check_device.
  destruct (status_alive d); [| exact Hd].
  destruct (now - last_seen d >? timeout); [| exact Hd].
  destruct (0 <? length (buffer (set_liveness (last_seen d) false d)))%nat; [| exact Hd].
  rewrite pop_all_spec.
  set (d0 := with_buffer [] (set_liveness (last_seen d) false d)).
  set (b := map (set_status Flushed_Timeout) (sort_by_ts (buffer (set_liveness (last_seen d) false d)))).
  pose proof (process_all_keeps_scalars d0 b) as [Hb _].
  split; [rewrite Hb; constructor |]. split; [rewrite Hb; cbn; lia |].
  apply tracker_process_all. destruct Hd as (_ & _ & Ht). exact Ht.
Qed.

Lemma liveness_check_ok (thr timeout now : Z) (ds : devices) :
  0 <= thr -> devices_ok thr ds -> devices_ok thr (fst (liveness_check timeout now ds)).
Proof.
  intros Hthr. induction ds as [|[k d] rest IH]; intros Hds; [constructor |].
  inversion Hds as [| ? ? Hd Hrest]; subst. cbn.
  pose proof (liveness_device_ok thr timeout now d Hthr Hd) as H1.
  destruct (liveness_check_device timeout now d) as [d' l1].
  specialize (IH Hrest). destruct (liveness_check timeout now rest) as [rest' l2].
  constructor; [exact H1 | exact IH].
Qed.

Lemma lookup_In (k : Z) (d : device) (ds : devices) :
  lookup k ds = Some d -> In (k, d) ds.
Proof.
  induction ds as [|[k' d'] rest IH]; cbn; [discriminate |].
  destruct (Z.eqb_spec k k') as [->|_]; [intros H; injection H as ->; left; reflexivity |].
  intros H. right. exact (IH H).
Qed.

Lemma arrive_tracker_ok (thr arrival_time : Z) (data : list Z) (ds : devices)
    (device_id : Z) (state : device) (entry : packet) :
  devices_ok thr ds ->
  arrive arrival_time data ds = Some (device_id, state, entry) ->
  tracker_ok state.
Proof.
  intros Hds Ha. unfold arrive in Ha.
  destruct (length data <? HEADER_SIZE + 2)%nat; [discriminate |].
  destruct (negb _); [discriminate |].
  injection Ha as _ <- _.
  apply tracker_set_last_latency.
  set (prev := match lookup _ ds with Some d => d | None => new_device arrival_time end).
  assert (Hp : tracker_ok prev).
  { unfold prev. destruct (lookup _ ds) as [d|] eqn:E; [| apply tracker_new_device].
    apply lookup_In in E. unfold devices_ok in Hds. rewrite Forall_forall in Hds.
    destruct (Hds _ E) as (_ & _ & Ht). exact Ht. }
  destruct (_ =? MSG_INIT); [apply tracker_reset |]; apply tracker_set_liveness; exact Hp.
Qed.

Lemma devices_ok_put (thr k : Z) (v : device) (ds : devices) :
  device_ok thr v -> devices_ok thr ds -> devices_ok thr (put k v ds).
Proof.
  intros Hv. induction ds as [|[k' d] rest IH]; intros Hds; cbn.
  - constructor; [exact Hv | constructor].
  - inversion Hds as [| ? ? Hd Hrest]; subst.
    destruct (k =? k'); constructor; [exact Hv | exact Hrest | exact Hd | exact (IH Hrest)].
Qed.

Lemma handle_datagram_ok (thr arrival_time : Z) (data : list Z) (ds : devices) :
  0 <= thr -> devices_ok thr ds ->
  exists ds' rows, handle_datagram thr arrival_time data ds = Some (ds', rows) /\
    devices_ok thr ds'.
Proof.
  intros Hthr Hds. unfold handle_datagram.
  destruct (arrive arrival_time data ds) as [[[i st] e]|] eqn:Ha; [| eauto].
  pose proof (arrive_tracker_ok thr _ _ _ _ _ _ Hds Ha) as Ht.
  destruct (sort_by_ts_spec (buffer st ++ [e])) as [Hs _].
  set (buf := sort_by_ts (buffer st ++ [e])) in *.
  pose proof (drain_spec thr buf st Hs) as H.
  destruct (drain thr buf (with_buffer buf st)) as [[d' r]|]; [| lia].
  destruct H as [fin (_ & Hs' & Hlen & _ & Hp)].
  exists (put i d' ds), r. split; [reflexivity |].
  apply devices_ok_put; [| exact Hds].
  split; [exact Hs' |]. split; [exact Hlen |].
  replace d' with (fst (process_all (with_buffer (buffer d') st) fin)) by (rewrite Hp; reflexivity).
  apply tracker_process_all, tracker_with_buffer, Ht.
Qed.

(** X4: with a non-negative flush threshold an iteration of the receive
    loop never raises, and it keeps, for every device, a buffer sorted by
    send time and no longer than the threshold, a duplicate-free history
    of at most 500 sequences holding [last_processed_seq], and counters
    with [0 <= duplicates <= received] and [0 <= gaps]. *)
Theorem iteration_keeps_device_ok (flush_threshold liveness_timeout_client
    current_real_time : Z) (recv : option (Z * list Z)) (ds : devices) :
  0 <= flush_threshold -> devices_ok flush_threshold ds ->
  exists ds' rows,
    iteration flush_threshold liveness_timeout_client current_real_time recv ds =
      Some (ds', rows) /\
    devices_ok flush_threshold ds'.
Proof.
  intros Hthr Hds. unfold iteration.
  pose proof (liveness_check_ok flush_threshold liveness_timeout_client current_real_time
    ds Hthr Hds) as H1.
  destruct (liveness_check liveness_timeout_client current_real_time ds) as [ds1 r1].
  cbn in H1. destruct recv as [[t data]|]; [| eauto].
  destruct (handle_datagram_ok flush_threshold t data ds1 Hthr H1) as (ds2 & r2 & E & H2).
  rewrite E. eauto.
Qed.

Lemma iteration_keeps_device_ok_witness :
  (0 <= 2 /\ devices_ok 2 dev1_seen) /\
  exists ds' rows,
    iteration 2 1000 0 (Some (TIMESTAMP_OFFSET * 1000 + 20, sample_datagram)) dev1_seen =
      Some (ds', rows) /\
    devices_ok 2 ds'.
Proof.
  assert (H : devices_ok 2 dev1_seen).
  { unfold devices_ok, dev1_seen. constructor; [| constructor].
    unfold device_ok, tracker_ok, HISTORY_MAXLEN; cbn.
    split; [constructor |]. split; [lia |].
    split; [constructor; [intros [] | constructor] |].
    split; [lia |]. split; [intros s Hs; injection Hs as <-; left; reflexivity |]. lia. }
  split; [split; [lia | exact H] |].
  exact (iteration_keeps_device_ok 2 1000 0 _ dev1_seen ltac:(lia) H).
Defined.

(** ** The device map's keys *)

Lemma put_keys (k : Z) (v : device) (ds : devices) :
  map fst (put k v ds) =
    match lookup k ds with
    | Some _ => map fst ds
    | None => map fst ds ++ [k]
    end.
Proof.
  induction ds as [|[k' d] rest IH]; [reflexivity |]. cbn.
  destruct (Z.eqb_spec k k') as [->|_]; [reflexivity |].
  cbn. rewrite IH. destruct (lookup k rest); reflexivity.
Qed.

Lemma liveness_check_keys (timeout now : Z) (ds : devices) :
  map fst (fst (liveness_check timeout now ds)) = map fst ds.
Proof.
  induction ds as [|[k d] rest IH]; [reflexivity |]. cbn.
  destruct (liveness_check_device timeout now d) as [d' l1].
  destruct (liveness_check timeout now rest) as [rest' l2]. cbn in *. rewrite IH. reflexivity.
Qed.

Lemma handle_datagram_keys (thr arrival_time : Z) (data : list Z) (ds ds' : devices)
    (rows : list log_row) :
  handle_datagram thr arrival_time data ds = Some (ds', rows) ->
  map fst ds' = map fst ds \/
  (lookup (device_id_of data) ds = None /\ map fst ds' = map fst ds ++ [device_id_of data]).
Proof.
  unfold handle_datagram.
  destruct (arrive arrival_time data ds) as [[[i st] e]|] eqn:Ha;
    [| intros H; injection H as <- _; left; reflexivity].
  destruct (arrive_inv _ _ _ _ _ _ Ha) as (_ & _ & Hi & _).
  destruct (drain _ _ _) as [[d' r]|]; [| discriminate].
  intros H; injection H as <- _. rewrite put_keys, <- Hi.
  destruct (lookup i ds); [left | right]; auto.
Qed.

(** X5: an iteration of the receive loop never removes a device from
    [devices_state] nor reorders its keys; the only key it can add is the
    device id of the datagram received, unknown before, at the end. *)
Theorem iteration_keys (flush_threshold liveness_timeout_client current_real_time : Z)
    (recv : option (Z * list Z)) (ds ds' : devices) (rows : list log_row) :
  iteration flush_threshold liveness_timeout_client current_real_time recv ds =
    Some (ds', rows) ->
  map fst ds' = map fst ds \/
  exists arrival_time data,
    recv = Some (arrival_time, data) /\
    lookup (device_id_of data) ds = None /\
    map fst ds' = map fst ds ++ [device_id_of data].
Proof.
  unfold iteration.
  pose proof (liveness_check_keys liveness_timeout_client current_real_time ds) as K.
  pose proof (fun k => lookup_liveness_check liveness_timeout_client current_real_time k ds) as L.
  destruct (liveness_check liveness_timeout_client current_real_time ds) as [ds1 r1].
  cbn in K, L. destruct recv as [[t data]|].
  - destruct (handle_datagram flush_threshold t data ds1) as [[ds2 r2]|] eqn:Hh;
      [| discriminate].
    intros H; injection H as <- _.
    destruct (handle_datagram_keys _ _ _ _ _ _ Hh) as [E | [Hn E]].
    + left. congruence.
    + right. exists t, data. split; [reflexivity |]. split; [| congruence].
      specialize (L (device_id_of data)). rewrite Hn in L.
      destruct (lookup (device_id_of data) ds); [discriminate | reflexivity].
  - intros H; injection H as <- _. left. exact K.
Qed.

Lemma iteration_keys_witness :
  match iteration 2 1000 0 (Some (TIMESTAMP_OFFSET * 1000 + 20, sample_datagram)) dead7 with
  | Some (ds', rows) =>
      map fst ds' = map fst dead7 \/
      exists arrival_time data,
        Some (TIMESTAMP_OFFSET * 1000 + 20, sample_datagram) = Some (arrival_time, data) /\
        lookup (device_id_of data) dead7 = None /\
        map fst ds' = map fst dead7 ++ [device_id_of data]
  | None => False
  end.
Proof.
  destruct (iteration 2 1000 0 (Some (TIMESTAMP_OFFSET * 1000 + 20, sample_datagram)) dead7)
    as [[ds' rows]|] eqn:E.
  - exact (iteration_keys 2 1000 0 _ dead7 ds' rows E).
  - vm_compute in E. discriminate.
Defined.

(** ** Shutdown flush *)

Lemma process_received (d : device) (p : packet) :
  received (dstats (fst (process_and_log_packet d p))) = received (dstats d) + 1.
Proof.
  unfold process_and_log_packet. cbn.
  destruct (existsb _ _); [| destruct (gap_of _ _) as [[|] gc]]; reflexivity.
Qed.

Lemma process_all_received (d : device) (ps : list packet) :
  received (dstats (fst (process_all d ps))) = received (dstats d) + Z.of_nat (length ps).
Proof.
  revert d. induction ps as [|p ps IH]; intros d; cbn; [lia |].
  pose proof (process_received d p) as H1.
  destruct (process_and_log_packet d p) as [d1 l1]. cbn in H1.
  specialize (IH d1). destruct (process_all d1 ps) as [d2 l2]. cbn in *. lia.
Qed.

Lemma process_rows_fields (d : device) (p : packet) (r : log_row) :
  In r (snd (process_and_log_packet d p)) ->
  p_timestamp_sent (row_pkt r) = p_timestamp_sent p /\ p_status (row_pkt r) = p_status p.
Proof.
  unfold process_and_log_packet. cbn.
  destruct (existsb _ _); [| destruct (gap_of _ _) as [[|] gc]]; cbn;
    intros Hr; apply log_rows_pkt in Hr; rewrite Hr; split; reflexivity.
Qed.

Lemma process_all_rows_fields (d : device) (ps : list packet) (r : log_row) :
  In r (snd (process_all d ps)) ->
  exists p, In p ps /\
    p_timestamp_sent (row_pkt r) = p_timestamp_sent p /\ p_status (row_pkt r) = p_status p.
Proof.
  revert d. induction ps as [|p ps IH]; intros d; cbn; [intros [] |].
  pose proof (process_rows_fields d p) as H1.
  destruct (process_and_log_packet d p) as [d1 l1]. cbn in H1.
  specialize (IH d1). destruct (process_all d1 ps) as [d2 l2]. cbn in *.
  intros Hr. apply in_app_or in Hr as [Hr|Hr].
  - exists p. split; [left; reflexivity | exact (H1 r Hr)].
  - destruct (IH Hr) as (q & Hq & Hf). exists q. split; [right; exact Hq | exact Hf].
Qed.

Lemma StronglySorted_app {A} (R : A -> A -> Prop) (l1 l2 : list A) :
  StronglySorted R l1 -> StronglySorted R l2 ->
  (forall x y, In x l1 -> In y l2 -> R x y) -> StronglySorted R (l1 ++ l2).
Proof.
  induction l1 as [|x l1 IH]; intros H1 H2 H12; [exact H2 |].
  apply StronglySorted_inv in H1 as [H1 Hx]. cbn. constructor.
  - apply IH; [exact H1 | exact H2 |]. intros a b Ha Hb. apply H12; [right |]; assumption.
  - apply Forall_app. split; [exact Hx |].
    apply Forall_forall. intros y Hy. apply H12; [left; reflexivity | exact Hy].
Qed.

Lemma StronglySorted_const_key {A} (key : A -> Z) (c : Z) (l : list A) :
  (forall x, In x l -> key x = c) ->
  StronglySorted (fun a b => key a <= key b) l.
Proof.
  induction l as [|x l IH]; intros H; constructor.
  - apply IH. intros y Hy. apply H. right. exact Hy.
  - apply Forall_forall. intros y Hy.
    rewrite (H x (or_introl eq_refl)), (H y (or_intror Hy)). lia.
Qed.

Lemma process_all_rows_sorted (d : device) (ps : list packet) :
  Sorted ts_le ps ->
  Sorted (fun r1 r2 => p_timestamp_sent (row_pkt r1) <= p_timestamp_sent (row_pkt r2))
    (snd (process_all d ps)).
Proof.
  intros Hs. apply StronglySorted_Sorted.
  apply Sorted_StronglySorted in Hs; [| exact ts_le_trans].
  revert d. induction ps as [|p ps IH]; intros d; cbn; [constructor |].
  apply StronglySorted_inv in Hs as [Hs Hp].
  pose proof (process_rows_fields d p) as H1.
  destruct (process_and_log_packet d p) as [d1 l1]. cbn in H1.
  pose proof (process_all_rows_fields d1 ps) as H2.
  specialize (IH Hs d1). destruct (process_all d1 ps) as [d2 l2]. cbn in *.
  apply StronglySorted_app; [| exact IH |].
  - apply (StronglySorted_const_key (fun r => p_timestamp_sent (row_pkt r))
      (p_timestamp_sent p)). intros x Hx. apply (H1 x Hx).
  - intros x y Hx Hy. rewrite (proj1 (H1 x Hx)).
    destruct (H2 y Hy) as (q & Hq & Hts & _). rewrite Hts.
    rewrite Forall_forall in Hp. exact (Hp q Hq).
Qed.

Lemma Sorted_map_status (s : status) (l : list packet) :
  Sorted ts_le l -> Sorted ts_le (map (set_status s) l).
Proof.
  induction 1 as [|p l Hs IH Hhd]; cbn; constructor; [exact IH |].
  destruct Hhd as [|q l Hq]; constructor. exact Hq.
Qed.

(** X6: the shutdown flush of a device finalizes every packet left in its
    buffer: [received] grows by exactly the buffer's length, and the rows
    are logged in non-decreasing send time, each tagged [Flushed]. *)
Theorem shutdown_flush_device_spec (d : device) :
  let '(s, rows) := shutdown_flush_device d in
  received s = received (dstats d) + Z.of_nat (length (buffer d)) /\
  Sorted (fun r1 r2 => p_timestamp_sent (row_pkt r1) <= p_timestamp_sent (row_pkt r2)) rows /\
  Forall (fun r => p_status (row_pkt r) = Flushed) rows.
Proof.
  unfold shutdown_flush_device.
  destruct (sort_by_ts_spec (buffer d)) as [Hs Hp].
  set (b := map (set_status Flushed) (sort_by_ts (buffer d))).
  pose proof (process_all_received (with_buffer b d) b) as H1.
  pose proof (process_all_rows_sorted (with_buffer b d) b
    (Sorted_map_status Flushed _ Hs)) as H2.
  pose proof (process_all_rows_fields (with_buffer b d) b) as H3.
  destruct (process_all (with_buffer b d) b) as [d' rows]. cbn in *.
  split; [| split; [exact H2 |]].
  - rewrite H1. unfold b. rewrite length_map, (Permutation_length Hp). reflexivity.
  - apply Forall_forall. intros r Hr. destruct (H3 r Hr) as (q & Hq & _ & Hst).
    rewrite Hst. unfold b in Hq. apply in_map_iff in Hq as (q0 & <- & _). reflexivity.
Qed.

(** ** Arrival *)

(** X7: accepting a datagram leaves the device's buffer as it was and
    touches its sequence tracker only for INIT: an INIT clears the history
    and [last_processed_seq] and zeroes [duplicates] while keeping
    [received] and [gaps]; any other type leaves tracker and counters
    unchanged (the packet is only counted once it leaves the buffer). *)
Theorem arrive_tracker (arrival_time : Z) (data : list Z) (ds : devices)
    (device_id : Z) (state : device) (entry : packet) :
  arrive arrival_time data ds = Some (device_id, state, entry) ->
  let prev := prior_state device_id arrival_time ds in
  buffer state = buffer prev /\
  if msg_type_of data =? MSG_INIT then
    last_processed_seq state = None /\ processed_seqs state = [] /\
    dstats state = mkStats (received (dstats prev)) 0 (gaps (dstats prev))
  else
    last_processed_seq state = last_processed_seq prev /\
    processed_seqs state = processed_seqs prev /\ dstats state = dstats prev.
Proof.
  intros Ha. unfold arrive in Ha.
  destruct (length data <? HEADER_SIZE + 2)%nat; [discriminate |].
  destruct (negb _); [discriminate |].
  injection Ha as <- <- _. unfold prior_state, msg_type_of.
  destruct (Z.land (nth 8 data 0) 15 =? MSG_INIT); cbn; auto.
Qed.

Lemma arrive_tracker_witness :
  processed_seqs (prior_state 1 100 dev1_busy) = [1; 2] /\
  dstats (prior_state 1 100 dev1_busy) = mkStats 5 2 1 /\
  match arrive 100 (datagram 1 3 10 0 []) dev1_busy with
  | Some (device_id, state, entry) =>
      let prev := prior_state device_id 100 dev1_busy in
      buffer state = buffer prev /\
      if msg_type_of (datagram 1 3 10 0 []) =? MSG_INIT then
        last_processed_seq state = None /\ processed_seqs state = [] /\
        dstats state = mkStats (received (dstats prev)) 0 (gaps (dstats prev))
      else
        last_processed_seq state = last_processed_seq prev /\
        processed_seqs state = processed_seqs prev /\ dstats state = dstats prev
  | None => False
  end.
Proof.
  split; [reflexivity |]. split; [reflexivity |].
  destruct (arrive 100 (datagram 1 3 10 0 []) dev1_busy) as [[[i st] e]|] eqn:E.
  - exact (arrive_tracker 100 _ dev1_busy i st e E).
  - vm_compute in E. discriminate.
Defined.

Lemma arrival_ms_masked_range (t : Z) : 0 <= arrival_ms_masked t < 2 ^ 32.
Proof.
  unfold arrival_ms_masked. change 4294967295 with (Z.ones 32).
  rewrite Z.land_ones by lia. apply Z.mod_pos_bound. lia.
Qed.

Lemma nth_byte (data : list Z) (i : nat) :
  Forall (fun b => 0 <= b < 256) data -> 0 <= nth i data 0 < 256.
Proof.
  intros H. destruct (Nat.lt_ge_cases i (length data)) as [Hi|Hi].
  - rewrite Forall_forall in H. apply H, nth_In, Hi.
  - rewrite nth_overflow by exact Hi. lia.
Qed.

(** X8: for a datagram of bytes, the latency recorded in the packet entry
    lies in [[0, 2^32)], whatever the arrival time and the sender's
    timestamp. *)
Theorem latency_range (arrival_time : Z) (data : list Z) (ds : devices)
    (device_id : Z) (state : device) (entry : packet) :
  Forall (fun b => 0 <= b < 256) data ->
  arrive arrival_time data ds = Some (device_id, state, entry) ->
  0 <= p_latency entry < 2 ^ 32.
Proof.
  intros Hb Ha. destruct (arrive_inv _ _ _ _ _ _ Ha) as (_ & _ & _ & _ & Hl & _).
  rewrite Hl. unfold latency_of, ts_sent_of, be32.
  pose proof (arrival_ms_masked_range arrival_time).
  pose proof (nth_byte data 4 Hb). pose proof (nth_byte data 5 Hb).
  pose proof (nth_byte data 6 Hb). pose proof (nth_byte data 7 Hb).
  set (m := arrival_ms_masked arrival_time) in *.
  set (ts := ((nth 4 data 0 * 256 + nth 5 data 0) * 256 + nth 6 data 0) * 256 + nth 7 data 0).
  assert (0 <= ts < 2 ^ 32) by (unfold ts; lia).
  destruct (Z.ltb_spec (m - ts) (-2147483648)); lia.
Qed.

Lemma latency_range_witness :
  Forall (fun b => 0 <= b < 256) sample_datagram /\
  match arrive 5 sample_datagram [] with
  | Some (device_id, state, entry) => 0 <= p_latency entry < 2 ^ 32
  | None => False
  end.
Proof.
  assert (Hb : Forall (fun b => 0 <= b < 256) sample_datagram)
    by (vm_compute; repeat constructor; discriminate).
  split; [exact Hb |].
  destruct (arrive 5 sample_datagram []) as [[[i st] e]|] eqn:E.
  - exact (latency_range 5 sample_datagram [] i st e Hb E).
  - vm_compute in E. discriminate.
Defined.

(** ** Round trip from the sender *)

Lemma be16_bytes16 (x : Z) :
  0 <= x < 65536 -> be16 (Z.shiftr x 8 mod 256) (x mod 256) = x.
Proof.
  intros Hx. unfold be16. rewrite Z.shiftr_div_pow2 by lia. change (2 ^ 8) with 256.
  rewrite (Z.mod_small (x / 256)) by (split; [apply Z.div_pos | apply Z.div_lt_upper_bound]; lia).
  pose proof (Z.div_mod x 256 ltac:(lia)). lia.
Qed.

Lemma be32_bytes32 (x : Z) :
  0 <= x < 2 ^ 32 ->
  be32 (Z.shiftr x 24 mod 256) (Z.shiftr x 16 mod 256) (Z.shiftr x 8 mod 256) (x mod 256) = x.
Proof.
  intros Hx. unfold be32. rewrite !Z.shiftr_div_pow2 by lia.
  change (2 ^ 24) with (256 * 256 * 256). change (2 ^ 16) with (256 * 256).
  change (2 ^ 8) with 256.
  rewrite <- !Z.div_div by lia.
  set (y1 := x / 256). set (y2 := y1 / 256). set (y3 := y2 / 256).
  pose proof (Z.div_mod x 256 ltac:(lia)). pose proof (Z.mod_pos_bound x 256 ltac:(lia)).
  pose proof (Z.div_mod y1 256 ltac:(lia)). pose proof (Z.mod_pos_bound y1 256 ltac:(lia)).
  pose proof (Z.div_mod y2 256 ltac:(lia)). pose proof (Z.mod_pos_bound y2 256 ltac:(lia)).
  pose proof (Z.div_mod y3 256 ltac:(lia)). pose proof (Z.mod_pos_bound y3 256 ltac:(lia)).
  assert (0 <= y3 < 256).
  { unfold y3, y2, y1. rewrite !Z.div_div by lia.
    split; [apply Z.div_pos | apply Z.div_lt_upper_bound]; lia. }
  rewrite (Z.mod_small y3) by lia. lia.
Qed.

Lemma checksum_16 (l : list Z) : 0 <= compute_checksum l < 65536.
Proof.
  unfold compute_checksum. rewrite land_65535. apply Z.mod_pos_bound. lia.
Qed.

(** A datagram laid out as the sender lays it out is accepted and decoded
    field by field. *)
Lemma arrive_datagram (arrival_time : Z) (ds : devices)
    (dev sq ts mvb : Z) (payload : list Z) :
  0 <= dev < 65536 -> 0 <= sq < 65536 -> 0 <= ts < 2 ^ 32 ->
  exists state entry,
    arrive arrival_time (datagram dev sq ts mvb payload) ds = Some (dev, state, entry) /\
    p_seq entry = sq /\ p_timestamp_sent entry = ts /\
    p_msg_type entry = kind_of (Z.land mvb 15) /\
    p_payload_len entry = Z.of_nat (length payload) /\
    p_readings entry =
      (if (Z.land mvb 15 =? MSG_DATA) && (0 <? length payload)%nat
       then parse_readings payload else []).
Proof.
  intros Hd Hs Ht.
  remember (compute_checksum (bytes16 dev ++ bytes16 sq ++ bytes32 ts ++ [mvb] ++ payload))
    as c eqn:Hc.
  assert (Hc16 : 0 <= c < 65536) by (rewrite Hc; apply checksum_16).
  assert (E : datagram dev sq ts mvb payload =
    [Z.shiftr dev 8 mod 256; dev mod 256; Z.shiftr sq 8 mod 256; sq mod 256;
     Z.shiftr ts 24 mod 256; Z.shiftr ts 16 mod 256; Z.shiftr ts 8 mod 256; ts mod 256;
     mvb; Z.shiftr c 8 mod 256; c mod 256] ++ payload)
    by (rewrite Hc; reflexivity).
  rewrite E. unfold bytes16, bytes32 in Hc. cbn [app] in Hc.
  unfold arrive, HEADER_SIZE.
  cbn [app length firstn skipn nth Nat.add Nat.ltb Nat.leb].
  rewrite !be16_bytes16, be32_bytes32 by assumption.
  rewrite <- Hc, Z.eqb_refl. cbn [negb].
  eexists _, _. split; [reflexivity |].
  cbn [p_seq p_timestamp_sent p_msg_type p_payload_len p_readings].
  repeat split; try reflexivity. cbn [length]. lia.
Qed.

Lemma client_batch_datagram (dev sq ts : Z) (rs : list Client.sensor_reading) (data : list Z) :
  Client.create_batch_data_packet dev sq ts rs = Some data ->
  0 <= dev < 65536 /\ 0 <= sq < 65536 /\ 0 <= ts < 2 ^ 32 /\
  exists chunks, Client.pack_all rs = Some chunks /\
    data = datagram dev sq ts Client.MSG_DATA ([Z.of_nat (length rs)] ++ concat chunks).
Proof.
  unfold Client.create_batch_data_packet, Client.pack_header.
  destruct (_ && _) eqn:B; [| discriminate].
  rewrite !andb_true_iff, !Z.leb_le, !Z.ltb_lt in B.
  destruct (Z.of_nat (length rs) <? 256); [| discriminate].
  destruct (Client.pack_all rs) as [chunks|]; [| discriminate].
  intros H; injection H as <-. split; [lia |]. split; [lia |]. split; [lia |].
  exists chunks. split; reflexivity.
Qed.

Lemma pack_all_chunks (rs : list Client.sensor_reading) (chunks : list (list Z)) :
  Client.pack_all rs = Some chunks ->
  length chunks = length rs /\ Forall (fun c => length c = 12%nat) chunks.
Proof.
  revert chunks. induction rs as [|r rs IH]; intros chunks; cbn.
  - intros H; injection H as <-. split; [reflexivity | constructor].
  - unfold Client.pack_fff.
    destruct (Client.pack_f (Client.temperature r)), (Client.pack_f (Client.humidity r)),
      (Client.pack_f (Client.voltage r)); try discriminate.
    destruct (Client.pack_all rs) as [cs|]; [| discriminate].
    intros H; injection H as <-. destruct (IH cs eq_refl) as [Hl Hf].
    split; [cbn; rewrite Hl; reflexivity | constructor; [reflexivity | exact Hf]].
Qed.

Lemma client_heartbeat_datagram (dev sq ts : Z) (data : list Z) :
  Client.create_heartbeat_packet dev sq ts = Some data ->
  0 <= dev < 65536 /\ 0 <= sq < 65536 /\ 0 <= ts < 2 ^ 32 /\
  data = datagram dev sq ts Client.MSG_HEARTBEAT [].
Proof.
  unfold Client.create_heartbeat_packet, Client.pack_header.
  destruct (_ && _) eqn:B; [| discriminate].
  rewrite !andb_true_iff, !Z.leb_le, !Z.ltb_lt in B.
  intros H; injection H as <-. repeat split; lia.
Qed.

Lemma length_datagram (dev sq ts mvb : Z) (payload : list Z) :
  length (datagram dev sq ts mvb payload) = (11 + length payload)%nat.
Proof. unfold datagram, bytes16, bytes32. cbn [app length]. reflexivity. Qed.

Lemma length_concat_12 (rs : list (list Z)) :
  Forall (fun r => length r = 12%nat) rs -> length (concat rs) = (12 * length rs)%nat.
Proof.
  induction 1 as [|r rs Hr _ IH]; [reflexivity |].
  cbn [concat length]. rewrite length_app, Hr, IH. lia.
Qed.

Lemma parse_chunks (rs : list reading) (pre P : list Z) (start : nat) :
  Forall (fun r => length r = 12%nat) rs ->
  length pre = (1 + start * 12)%nat -> P = pre ++ concat rs ->
  flat_map (fun i =>
      let start_idx := (1 + i * 12)%nat in
      let end_idx := (start_idx + 12)%nat in
      if Nat.leb end_idx (length P) then [slice start_idx end_idx P] else [])
    (seq start (length rs)) = rs.
Proof.
  intros Hrs. revert pre start. induction Hrs as [|r rs Hr Hrs IH]; intros pre start Hpre HP;
    [reflexivity |].
  cbn [length seq flat_map].
  assert (Hlen : length P = (1 + start * 12 + 12 + length (concat rs))%nat)
    by (rewrite HP, !length_app; cbn [concat]; rewrite length_app; lia).
  rewrite Hlen. destruct (Nat.leb_spec (1 + start * 12 + 12) (1 + start * 12 + 12 + length (concat rs)))
    as [_|H]; [| lia].
  rewrite <- Hlen.
  assert (Hs : slice (1 + start * 12) (1 + start * 12 + 12) P = r).
  { unfold slice. replace (1 + start * 12 + 12 - (1 + start * 12))%nat with 12%nat by lia.
    rewrite HP, <- Hpre. cbn [concat]. rewrite skipn_app, skipn_all, Nat.sub_diag. cbn [app skipn].
    rewrite firstn_app, Hr, Nat.sub_diag, firstn_O, app_nil_r.
    apply firstn_all2. lia. }
  rewrite Hs. cbn [app]. f_equal.
  apply (IH (pre ++ r)).
  - rewrite length_app, Hpre, Hr. lia.
  - rewrite HP, <- app_assoc. reflexivity.
Qed.

Lemma parse_readings_batch (rs : list reading) :
  Forall (fun r => length r = 12%nat) rs ->
  parse_readings ([Z.of_nat (length rs)] ++ concat rs) = rs.
Proof.
  intros Hrs. unfold parse_readings. cbn [nth app]. rewrite Nat2Z.id.
  apply (parse_chunks rs [Z.of_nat (length rs)] _ 0 Hrs); reflexivity.
Qed.

(** X9: a DATA datagram built by the sender's [create_batch_data_packet]
    from at most 84 readings fits the server's 1024-byte [recvfrom] and is
    accepted by the server, which decodes the sender's device id, sequence
    number and timestamp, classifies it as DATA, records a payload of
    [1 + 12 n] bytes and gets, in order, exactly the 12-byte chunks
    [struct.pack('!fff', ...)] made of the readings: each value rounded to
    binary32, not the Python float that was sent. *)
Theorem batch_round_trip (arrival_time : Z) (ds : devices)
    (device_id seq_num timestamp : Z) (readings_list : list Client.sensor_reading)
    (data : list Z) :
  (length readings_list <= 84)%nat ->
  Client.create_batch_data_packet device_id seq_num timestamp readings_list = Some data ->
  (length data <= 1024)%nat /\
  exists chunks state entry,
    Client.pack_all readings_list = Some chunks /\
    arrive arrival_time data ds = Some (device_id, state, entry) /\
    p_seq entry = seq_num /\ p_timestamp_sent entry = timestamp /\
    p_msg_type entry = DATA /\
    p_payload_len entry = 1 + 12 * Z.of_nat (length readings_list) /\
    p_readings entry = chunks.
Proof.
  intros Hn Hc.
  destruct (client_batch_datagram _ _ _ _ _ Hc) as (Hd & Hs & Ht & chunks & Hp & ->).
  destruct (pack_all_chunks _ _ Hp) as [Hlc Hrs].
  split.
  { rewrite length_datagram. cbn [app length]. rewrite (length_concat_12 chunks Hrs), Hlc. lia. }
  destruct (arrive_datagram arrival_time ds device_id seq_num timestamp Client.MSG_DATA
    ([Z.of_nat (length readings_list)] ++ concat chunks) Hd Hs Ht)
    as (st & e & Ha & H1 & H2 & H3 & H4 & H5).
  exists chunks, st, e. split; [exact Hp |]. split; [exact Ha |].
  split; [exact H1 |]. split; [exact H2 |].
  split; [rewrite H3; reflexivity |]. split.
  - rewrite H4. cbn [app length]. rewrite (length_concat_12 chunks Hrs), Hlc. lia.
  - rewrite H5. cbn [app length]. rewrite <- Hlc. exact (parse_readings_batch chunks Hrs).
Qed.

Lemma batch_round_trip_witness :
  (length [Client.sample_reading; Client.sample_reading] <= 84)%nat /\
  Client.round_f32 Client.f_23_45 <> Client.f_23_45 /\
  Client.pack_f Client.f_23_45 = Some 1102813594 /\
  match Client.create_batch_data_packet 7 3 1000 [Client.sample_reading; Client.sample_reading] with
  | Some data =>
      (length data <= 1024)%nat /\
      exists chunks state entry,
        Client.pack_all [Client.sample_reading; Client.sample_reading] = Some chunks /\
        arrive 50 data [] = Some (7, state, entry) /\
        p_seq entry = 3 /\ p_timestamp_sent entry = 1000 /\
        p_msg_type entry = DATA /\
        p_payload_len entry =
          1 + 12 * Z.of_nat (length [Client.sample_reading; Client.sample_reading]) /\
        p_readings entry = chunks
  | None => False
  end.
Proof.
  split; [cbn; lia |].
  split; [vm_compute; discriminate |].
  split; [vm_compute; reflexivity |].
  destruct (Client.create_batch_data_packet 7 3 1000 [Client.sample_reading; Client.sample_reading])
    as [data|] eqn:E.
  - exact (batch_round_trip 50 [] 7 3 1000 [Client.sample_reading; Client.sample_reading] data
      ltac:(cbn; lia) E).
  - vm_compute in E. discriminate.
Defined.

(** X10: a HEARTBEAT datagram built by the sender's [create_heartbeat_packet]
    is accepted by the server with the sender's device id, sequence number
    and timestamp, classified as HEARTBEAT, with an empty payload and no
    readings. *)
Theorem heartbeat_round_trip (arrival_time : Z) (ds : devices)
    (device_id seq_num timestamp : Z) (data : list Z) :
  Client.create_heartbeat_packet device_id seq_num timestamp = Some data ->
  exists state entry,
    arrive arrival_time data ds = Some (device_id, state, entry) /\
    p_seq entry = seq_num /\ p_timestamp_sent entry = timestamp /\
    p_msg_type entry = HEARTBEAT /\ p_payload_len entry = 0 /\ p_readings entry = [].
Proof.
  intros Hc. destruct (client_heartbeat_datagram _ _ _ _ Hc) as (Hd & Hs & Ht & ->).
  destruct (arrive_datagram arrival_time ds device_id seq_num timestamp Client.MSG_HEARTBEAT
    [] Hd Hs Ht) as (st & e & Ha & H1 & H2 & H3 & H4 & H5).
  exists st, e. repeat split; assumption.
Qed.

Lemma heartbeat_round_trip_witness :
  match Client.create_heartbeat_packet 7 65535 4294967295 with
  | Some data =>
      exists state entry,
        arrive 50 data [] = Some (7, state, entry) /\
        p_seq entry = 65535 /\ p_timestamp_sent entry = 4294967295 /\
        p_msg_type entry = HEARTBEAT /\ p_payload_len entry = 0 /\ p_readings entry = []
  | None => False
  end.
Proof.
  destruct (Client.create_heartbeat_packet 7 65535 4294967295) as [data|] eqn:E.
  - exact (heartbeat_round_trip 50 [] 7 65535 4294967295 data E).
  - vm_compute in E. discriminate.
Defined.

(** ** What one arrival logs *)

Lemma Sorted_app_l {A} (R : A -> A -> Prop) (Htr : Transitive R) (l1 l2 : list A) :
  Sorted R (l1 ++ l2) -> Sorted R l1.
Proof.
  intros Hs. apply StronglySorted_Sorted.
  apply Sorted_StronglySorted in Hs; [| exact Htr].
  induction l1 as [|x l1 IH]; [constructor |].
  apply StronglySorted_inv in Hs as [Hs Hx]. constructor; [exact (IH Hs) |].
  rewrite Forall_forall in *. intros y Hy. apply Hx, in_or_app. left. exact Hy.
Qed.

(** X11: the rows logged while handling one datagram are in non-decreasing
    send time, and none of them was sent later than a packet its device
    keeps buffered. *)
Theorem handle_datagram_rows_ordered (flush_threshold arrival_time : Z) (data : list Z)
    (ds ds' : devices) (rows : list log_row) :
  handle_datagram flush_threshold arrival_time data ds = Some (ds', rows) ->
  Sorted (fun r1 r2 => p_timestamp_sent (row_pkt r1) <= p_timestamp_sent (row_pkt r2)) rows /\
  forall d' r q, lookup (device_id_of data) ds' = Some d' -> In r rows ->
    In q (buffer d') -> p_timestamp_sent (row_pkt r) <= p_timestamp_sent q.
Proof.
  unfold handle_datagram.
  destruct (arrive arrival_time data ds) as [[[i st] e]|] eqn:Ha;
    [| intros H; injection H as <- <-; split; [constructor | intros ? ? ? ? []]].
  destruct (arrive_inv _ _ _ _ _ _ Ha) as (_ & _ & Hi & _).
  destruct (sort_by_ts_spec (buffer st ++ [e])) as [Hs _].
  set (buf := sort_by_ts (buffer st ++ [e])) in *.
  pose proof (drain_spec flush_threshold buf st Hs) as Hd.
  destruct (drain flush_threshold buf (with_buffer buf st)) as [[d1 r1]|]; [| discriminate].
  intros H; injection H as <- <-.
  destruct Hd as [fin (Hb & _ & _ & Hle & Hp)].
  assert (Hf : Sorted ts_le fin) by (rewrite Hb in Hs; exact (Sorted_app_l _ ts_le_trans _ _ Hs)).
  pose proof (process_all_rows_sorted (with_buffer (buffer d1) st) fin Hf) as Hr.
  pose proof (process_all_rows_fields (with_buffer (buffer d1) st) fin) as Hfl.
  rewrite Hp in Hr, Hfl. cbn [snd] in Hr, Hfl.
  split; [exact Hr |].
  intros d' r q Hl Hin Hq. rewrite <- Hi, lookup_put in Hl. injection Hl as <-.
  destruct (Hfl r Hin) as (p & Hpin & Hts & _). rewrite Hts. exact (Hle p q Hpin Hq).
Qed.

Lemma handle_datagram_rows_ordered_witness :
  match receive_all 2 (firstn 2 reorder_events) [] with
  | Some (ds0, _) =>
      match handle_datagram 2 (TIMESTAMP_OFFSET * 1000 + 300) (datagram 7 2 20 2 []) ds0 with
      | Some (ds', rows) =>
          Sorted (fun r1 r2 => p_timestamp_sent (row_pkt r1) <= p_timestamp_sent (row_pkt r2))
            rows /\
          forall d' r q, lookup (device_id_of (datagram 7 2 20 2 [])) ds' = Some d' ->
            In r rows -> In q (buffer d') ->
            p_timestamp_sent (row_pkt r) <= p_timestamp_sent q
      | None => False
      end
  | None => False
  end.
Proof.
  destruct (receive_all 2 (firstn 2 reorder_events) []) as [[ds0 r0]|] eqn:E0;
    [| vm_compute in E0; discriminate].
  destruct (handle_datagram 2 (TIMESTAMP_OFFSET * 1000 + 300) (datagram 7 2 20 2 []) ds0)
    as [[ds' rows]|] eqn:E.
  - exact (handle_datagram_rows_ordered 2 _ _ ds0 ds' rows E).
  - vm_compute in E0. injection E0 as <- _. vm_compute in E. discriminate.
Defined.

(** X12: with a non-negative [flush_threshold] and a buffer within it, an
    arrival logs nothing while the buffer had room, and once the buffer was
    full it finalizes exactly one packet, the earliest sent of the buffer
    and the new entry. *)
Theorem arrival_drains_at_most_one (flush_threshold arrival_time : Z) (data : list Z)
    (ds : devices) (device_id : Z) (state : device) (entry : packet) :
  arrive arrival_time data ds = Some (device_id, state, entry) ->
  0 <= flush_threshold ->
  Z.of_nat (length (buffer state)) <= flush_threshold ->
  let buf := sort_by_ts (buffer state ++ [entry]) in
  handle_datagram flush_threshold arrival_time data ds =
    if Z.of_nat (length (buffer state)) <? flush_threshold then
      Some (put device_id (with_buffer buf state) ds, [])
    else
      match buf with
      | [] => None
      | p :: rest =>
          let '(d1, l1) := process_and_log_packet (with_buffer rest state) p in
          Some (put device_id d1 ds, l1)
      end.
Proof.
  intros Ha Hthr Hlen buf. unfold handle_datagram. rewrite Ha. fold buf.
  destruct (sort_by_ts_spec (buffer state ++ [entry])) as [_ Hp]. fold buf in Hp.
  apply Permutation_length in Hp. rewrite length_app in Hp. cbn [length] in Hp.
  destruct buf as [|p rest] eqn:Eb; [cbn in Hp; lia |].
  cbn [length] in Hp.
  destruct (Z.ltb_spec (Z.of_nat (length (buffer state))) flush_threshold) as [Hlt|Hge].
  - cbn [drain]. rewrite Z.gtb_ltb.
    destruct (Z.ltb_spec flush_threshold (Z.of_nat (length (p :: rest)))) as [H|_];
      [cbn [length] in H; lia | reflexivity].
  - cbn [drain]. rewrite Z.gtb_ltb.
    destruct (Z.ltb_spec flush_threshold (Z.of_nat (length (p :: rest)))) as [_|H];
      [| cbn [length] in H; lia].
    rewrite with_buffer_twice.
    destruct (process_and_log_packet (with_buffer rest state) p) as [d1 l1].
    destruct rest as [|p' rest']; cbn [drain].
    + rewrite Z.gtb_ltb. destruct (Z.ltb_spec flush_threshold (Z.of_nat (length (@nil packet))));
        [cbn in *; lia |]. rewrite app_nil_r. reflexivity.
    + rewrite Z.gtb_ltb.
      destruct (Z.ltb_spec flush_threshold (Z.of_nat (length (p' :: rest')))) as [H|_];
        [cbn [length] in *; lia |]. rewrite app_nil_r. reflexivity.
Qed.

Lemma arrival_drains_at_most_one_witness :
  match receive_all 2 (firstn 2 reorder_events) [] with
  | Some (ds0, _) =>
      match arrive (TIMESTAMP_OFFSET * 1000 + 300) (datagram 7 2 20 2 []) ds0 with
      | Some (device_id, state, entry) =>
          0 <= 2 /\ Z.of_nat (length (buffer state)) <= 2 /\
          let buf := sort_by_ts (buffer state ++ [entry]) in
          handle_datagram 2 (TIMESTAMP_OFFSET * 1000 + 300) (datagram 7 2 20 2 []) ds0 =
            if Z.of_nat (length (buffer state)) <? 2 then
              Some (put device_id (with_buffer buf state) ds0, [])
            else
              match buf with
              | [] => None
              | p :: rest =>
                  let '(d1, l1) := process_and_log_packet (with_buffer rest state) p in
                  Some (put device_id d1 ds0, l1)
              end
      | None => False
      end
  | None => False
  end.
Proof.
  destruct (receive_all 2 (firstn 2 reorder_events) []) as [[ds0 r0]|] eqn:E0;
    vm_compute in E0; [| discriminate].
  injection E0 as <- _.
  destruct (arrive (TIMESTAMP_OFFSET * 1000 + 300) (datagram 7 2 20 2 []) _)
    as [[[i st] e]|] eqn:E; [| vm_compute in E; discriminate].
  assert (Hl : Z.of_nat (length (buffer st)) <= 2)
    by (vm_compute in E; injection E as _ <- _; cbn; lia).
  split; [lia |]. split; [exact Hl |].
  exact (arrival_drains_at_most_one 2 _ _ _ i st e E ltac:(lia) Hl).
Defined.
